(** * CreateSaleDialog: the sale-entry form of the inventory front end

    A shallow embedding of [src/components/inventory/CreateSaleDialog.tsx]
    and of the ECMAScript built-ins it calls, followed by the properties
    of the component that the specification states.

    Conventions.
    - A JavaScript string is the list of its UTF-16 code units.
    - Quantities (purchase, sale and return quantities, the quantity
      field of the form) are integers; they are represented by [Z].  Every
      integer of magnitude at most 2^53 is a Number, and on those the
      operations used here ([+], [-], [<=], [Math.min]) are exact.
    - Prices are Numbers that need not be integers: they are binary64
      values, represented by [spec_float] with precision 53 and maximal
      exponent 1024.
    - A handler is a function from the state it closes over to the next
      state and the list of calls it makes on the component's props. *)

From Stdlib Require Import String Ascii.
From Stdlib Require Import ZArith NArith List Bool Lia Permutation.
From Stdlib Require Import Floats.SpecFloat.
Import ListNotations.

Local Open Scope Z_scope.

(* ===================================================================== *)
(** * ECMAScript built-ins used by the component                          *)
(* ===================================================================== *)

Module JS.

(** ** Strings *)

Abbreviation code_unit := N (only parsing).
Abbreviation jsstring := (list N) (only parsing).

(** An ASCII literal as a JavaScript string. *)
Definition lit (s : string) : jsstring :=
  map N_of_ascii (list_ascii_of_string s).

(** [a === b] on strings. *)
Fixpoint str_eqb (a b : jsstring) : bool :=
  match a, b with
  | [], [] => true
  | x :: a', y :: b' => N.eqb x y && str_eqb a' b'
  | _, _ => false
  end.

(** ToBoolean on a string: the empty string is the only falsy one. *)
Definition truthy (s : jsstring) : bool :=
  match s with [] => false | _ :: _ => true end.

(** WhiteSpace and LineTerminator code points (StrWhiteSpaceChar). *)
Definition isWhiteSpace (c : code_unit) : bool :=
  ((9 <=? c) && (c <=? 13) || (c =? 32) || (c =? 160) || (c =? 5760)
   || (8192 <=? c) && (c <=? 8202) || (c =? 8232) || (c =? 8233)
   || (c =? 8239) || (c =? 8287) || (c =? 12288) || (c =? 65279))%N.

Fixpoint trimStart (s : jsstring) : jsstring :=
  match s with
  | c :: s' => if isWhiteSpace c then trimStart s' else s
  | [] => []
  end.

(** The value of a code unit as a digit, when it is a letter or a digit. *)
Definition digitValue (c : code_unit) : option Z :=
  if ((48 <=? c) && (c <=? 57))%N then Some (Z.of_N c - 48)
  else if ((97 <=? c) && (c <=? 122))%N then Some (Z.of_N c - 87)
  else if ((65 <=? c) && (c <=? 90))%N then Some (Z.of_N c - 55)
  else None.

Definition radixDigit (R : Z) (c : code_unit) : option Z :=
  match digitValue c with
  | Some d => if d <? R then Some d else None
  | None => None
  end.

(** The longest prefix of [s] made of radix-[R] digits, as digit values,
    and what follows it. *)
Fixpoint spanDigits (R : Z) (s : jsstring) : list Z * jsstring :=
  match s with
  | c :: s' =>
      match radixDigit R c with
      | Some d => let '(ds, rest) := spanDigits R s' in (d :: ds, rest)
      | None => ([], s)
      end
  | [] => ([], [])
  end.

(** The integer that a list of digits denotes, most significant first. *)
Definition digitsValue (R : Z) (ds : list Z) : Z :=
  fold_left (fun acc d => acc * R + d) ds 0.

Definition isSign (c : code_unit) : bool := ((c =? 43) || (c =? 45))%N.

(** ** parseInt(string), radix undefined

    [None] is NaN.  The result is the mathematical value of the digits;
    +0 and -0 are both [Some 0]. *)
Definition parseInt (inputString : jsstring) : option Z :=
  let s := trimStart inputString in
  let sign := match s with c :: _ => if (c =? 45)%N then -1 else 1 | [] => 1 end in
  let s := match s with c :: s' => if isSign c then s' else s | [] => s end in
  let '(R, s) :=
    match s with
    | 48%N :: x :: s' => if ((x =? 120) || (x =? 88))%N then (16, s') else (10, s)
    | _ => (10, s)
    end in
  match fst (spanDigits R s) with
  | [] => None
  | ds => Some (sign * digitsValue R ds)
  end.

(** [n || 1] for a Number [n] that is an integer or NaN: NaN and zero are
    falsy. *)
Definition orOne (n : option Z) : Z :=
  match n with
  | Some v => if v =? 0 then 1 else v
  | None => 1
  end.

(** ** Decimal digits *)

Fixpoint decimalDigitsAux (fuel : nat) (n : Z) (acc : list Z) : list Z :=
  match fuel with
  | O => acc
  | S fuel' =>
      if n <? 10 then n :: acc
      else decimalDigitsAux fuel' (n / 10) (n mod 10 :: acc)
  end.

(** The decimal digits of a non-negative integer, most significant first,
    without leading zeros ([[0]] for zero). *)
Definition decimalDigits (n : Z) : list Z :=
  decimalDigitsAux (S (Z.to_nat (Z.log2 n))) n [].

(** The last [w] decimal digits of [n], with leading zeros. *)
Fixpoint padDigits (w : nat) (n : Z) : list Z :=
  match w with
  | O => []
  | S w' => padDigits w' (n / 10) ++ [n mod 10]
  end.

Definition digitChar (d : Z) : code_unit := Z.to_N (48 + d).

Definition digitChars (ds : list Z) : jsstring := map digitChar ds.

(** ** Numbers: binary64 *)

Abbreviation number := spec_float (only parsing).

Definition prec : Z := 53.
Definition emax : Z := 1024.

(** The Number value of an integer (round to nearest, ties to even). *)
Definition Number_of_Z (z : Z) : number := binary_normalize prec emax z 0 false.

(** The Number value of the rational [n / d], for [0 <= n], with the sign
    [neg]: the quotient is computed with at least 54 significant bits and
    the position of the remainder decides the rounding. *)
Definition Number_of_ratio (neg : bool) (n : Z) (d : positive) : number :=
  match n with
  | Zpos p =>
      let k := Z.max 0 (Zpos (digits2_pos d) + 54 - Zpos (digits2_pos p)) in
      let '(q, r) := Z.div_eucl (Z.shiftl n k) (Zpos d) in
      binary_round_aux prec emax neg q (- k) (new_location (Zpos d) r)
  | _ => S754_zero neg
  end.

(** [m * 10^p] as a Number. *)
Definition Number_of_decimal (neg : bool) (m p : Z) : number :=
  if 0 <=? p then Number_of_ratio neg (m * 10 ^ p) 1
  else Number_of_ratio neg m (Z.to_pos (10 ^ (- p))).

Definition number_eqb (x y : number) : bool :=
  match x, y with
  | S754_zero a, S754_zero b => Bool.eqb a b
  | S754_infinity a, S754_infinity b => Bool.eqb a b
  | S754_nan, S754_nan => true
  | S754_finite a m e, S754_finite b m' e' =>
      Bool.eqb a b && Pos.eqb m m' && Z.eqb e e'
  | _, _ => false
  end.

(** [x * y] on Numbers. *)
Definition mul (x y : number) : number := SFmul prec emax x y.

(** The magnitude of a finite Number as a fraction. *)
Definition magnitude (x : number) : Z * positive :=
  match x with
  | S754_finite _ m e =>
      if 0 <=? e then (Zpos m * 2 ^ e, 1%positive)
      else (Zpos m, Z.to_pos (2 ^ (- e)))
  | _ => (0, 1%positive)
  end.

Definition isNegative (x : number) : bool :=
  match x with
  | S754_finite s _ _ => s
  | S754_infinity s => s
  | _ => false
  end.

(** ** parseFloat(string) *)

Fixpoint startsWith (p s : jsstring) : bool :=
  match p, s with
  | [], _ => true
  | x :: p', y :: s' => N.eqb x y && startsWith p' s'
  | _ :: _, [] => false
  end.

(** The value of the ExponentPart that [s] starts with, 0 when it starts
    with none. *)
Definition exponentPart (s : jsstring) : Z :=
  match s with
  | c :: s' =>
      if ((c =? 101) || (c =? 69))%N then
        let '(neg, s'') :=
          match s' with
          | x :: t => if (x =? 45)%N then (true, t)
                      else if (x =? 43)%N then (false, t) else (false, s')
          | [] => (false, s')
          end in
        match fst (spanDigits 10 s'') with
        | [] => 0
        | ds => (if neg then -1 else 1) * digitsValue 10 ds
        end
      else 0
  | [] => 0
  end.

(** The Number value of the longest prefix of the trimmed string that is a
    StrDecimalLiteral; NaN when there is none. *)
Definition parseFloat (inputString : jsstring) : number :=
  let s := trimStart inputString in
  let neg := match s with c :: _ => (c =? 45)%N | [] => false end in
  let s := match s with c :: s' => if isSign c then s' else s | [] => s end in
  if startsWith (lit "Infinity") s then S754_infinity neg
  else
    let '(ip, s1) := spanDigits 10 s in
    let '(fp, s2) :=
      match s1 with
      | 46%N :: t => spanDigits 10 t
      | _ => ([], s1)
      end in
    match ip ++ fp with
    | [] => S754_nan
    | ds =>
        Number_of_decimal neg (digitsValue 10 ds)
          (exponentPart s2 - Z.of_nat (length fp))
    end.

(** ** Number::toString(x), radix 10 *)

(** The [n] with [10^(n-1) <= num/den < 10^n], for [0 < num]. *)
Definition decimalExponent (num : Z) (den : positive) : Z :=
  if Zpos den <=? num then Z.of_nat (length (decimalDigits (num / Zpos den)))
  else 1 - Z.of_nat (length (decimalDigits ((Zpos den + num - 1) / num - 1))).

(** The two [k]-digit decimals that enclose [num/den], as pairs [(s, n)]
    denoting [s * 10^(n-k)], and which of them is nearer: [Lt] the lower
    one, [Gt] the upper one. *)
Definition enclosing (num : Z) (den : positive) (n0 k : Z)
  : (Z * Z) * (Z * Z) * comparison :=
  let '(a, b) :=
    if 0 <=? n0 - k then (num, Zpos den * 10 ^ (n0 - k))
    else (num * 10 ^ (k - n0), Zpos den) in
  let sl := a / b in
  let hi := if sl + 1 <? 10 ^ k then (sl + 1, n0) else (10 ^ (k - 1), n0 + 1) in
  ((sl, n0), hi, (2 * (a mod b) ?= b)).

(** The shortest digits [(s, n)] among those of at least [k] digits whose
    value has the Number value [x]; of two of the same length the nearer
    one, and the even one when they are equally near. *)
Fixpoint shortest (fuel : nat) (x : number) (num : Z) (den : positive)
    (n0 k : Z) : Z * Z :=
  let '(lo, hi, c) := enclosing num den n0 k in
  match fuel with
  | O => lo
  | S fuel' =>
      let ok '(s, n) := number_eqb (Number_of_decimal false s (n - k)) x in
      match ok lo, ok hi with
      | true, true =>
          match c with
          | Lt => lo
          | Gt => hi
          | Eq => if Z.even (fst lo) then lo else hi
          end
      | true, false => lo
      | false, true => hi
      | false, false => shortest fuel' x num den n0 (k + 1)
      end
  end.

Definition signChars (n : Z) : jsstring :=
  if n <? 0 then lit "-" else lit "+".

Definition Number_toString (x : number) : jsstring :=
  match x with
  | S754_nan => lit "NaN"
  | S754_zero _ => lit "0"
  | S754_infinity s => (if s then lit "-" else []) ++ lit "Infinity"
  | S754_finite sg _ _ =>
      let '(num, den) := magnitude x in
      let '(s, n) := shortest 17 (SFabs x) num den (decimalExponent num den) 1 in
      let ds := decimalDigits s in
      let k := Z.of_nat (length ds) in
      (if sg then lit "-" else []) ++
      (if (k <=? n) && (n <=? 21) then
         digitChars ds ++ repeat 48%N (Z.to_nat (n - k))
       else if (0 <? n) && (n <=? 21) then
         digitChars (firstn (Z.to_nat n) ds) ++ lit "." ++
         digitChars (skipn (Z.to_nat n) ds)
       else if (-6 <? n) && (n <=? 0) then
         lit "0." ++ repeat 48%N (Z.to_nat (- n)) ++ digitChars ds
       else
         let e := n - 1 in
         match ds with
         | [d] => digitChars [d] ++ lit "e" ++ signChars e ++
                  digitChars (decimalDigits (Z.abs e))
         | _ => digitChars (firstn 1 ds) ++ lit "." ++ digitChars (skipn 1 ds) ++
                lit "e" ++ signChars e ++ digitChars (decimalDigits (Z.abs e))
         end)
  end.

(** ** Completions

    A built-in or a handler either returns normally or throws. *)

Inductive error := RangeError | TypeError.

Inductive completion (A : Type) :=
  | Normal (a : A)
  | Throw (e : error).

Arguments Normal {A} a.
Arguments Throw {A} e.

Definition bind {A B} (c : completion A) (k : A -> completion B) : completion B :=
  match c with
  | Normal a => k a
  | Throw e => Throw e
  end.

Notation "x <- c ;; k" := (bind c (fun x => k))
  (at level 61, c at next level, right associativity).

(** ** Number.prototype.toFixed(f) *)

Definition toFixed (x : number) (f : nat) : completion jsstring :=
  if (100 <? f)%nat then Throw RangeError
  else
  Normal
  match x with
  | S754_nan | S754_infinity _ => Number_toString x
  | _ =>
      let '(num, den) := magnitude x in
      let s := if isNegative x then lit "-" else [] in
      if 10 ^ 21 * Zpos den <=? num then
        s ++ Number_toString (SFabs x)
      else
        let n := (2 * num * 10 ^ Z.of_nat f + Zpos den) / (2 * Zpos den) in
        let ds := decimalDigits n in
        let ds := repeat 0 (f + 1 - length ds) ++ ds in
        let k := length ds in
        s ++ digitChars (firstn (k - f) ds) ++
        match f with
        | O => []
        | _ => lit "." ++ digitChars (skipn (k - f) ds)
        end
  end.

(** ** String.prototype.split(separator), for a separator of one code unit *)

Fixpoint splitAux (sep : code_unit) (s cur : jsstring) : list jsstring :=
  match s with
  | [] => [rev cur]
  | c :: s' =>
      if (c =? sep)%N then rev cur :: splitAux sep s' []
      else splitAux sep s' (c :: cur)
  end.

Definition split (sep : code_unit) (s : jsstring) : list jsstring :=
  splitAux sep s [].

(** ** Dates: time values are milliseconds since the epoch, UTC *)

Definition msPerDay : Z := 86400000.
Definition msPerHour : Z := 3600000.
Definition msPerMinute : Z := 60000.
Definition msPerSecond : Z := 1000.

Definition Day (t : Z) : Z := t / msPerDay.
Definition TimeWithinDay (t : Z) : Z := t mod msPerDay.

Definition isLeapYear (y : Z) : bool :=
  if negb (y mod 4 =? 0) then false
  else if negb (y mod 100 =? 0) then true
  else if negb (y mod 400 =? 0) then false
  else true.

Definition DaysInYear (y : Z) : Z := if isLeapYear y then 366 else 365.

Definition DayFromYear (y : Z) : Z :=
  365 * (y - 1970) + (y - 1969) / 4 - (y - 1901) / 100 + (y - 1601) / 400.

Definition TimeFromYear (y : Z) : Z := msPerDay * DayFromYear y.

(** The largest [y] with [TimeFromYear y <= t]: an estimate from the mean
    length of a year, corrected by at most one. *)
Definition YearFromTime (t : Z) : Z :=
  let d := Day t in
  let y := 1970 + 400 * d / 146097 in
  if d <? DayFromYear y then y - 1
  else if DayFromYear (y + 1) <=? d then y + 1
  else y.

Definition InLeapYear (t : Z) : Z :=
  if isLeapYear (YearFromTime t) then 1 else 0.

Definition DayWithinYear (t : Z) : Z := Day t - DayFromYear (YearFromTime t).

Definition MonthFromTime (t : Z) : Z :=
  let d := DayWithinYear t in
  let l := InLeapYear t in
  if d <? 31 then 0
  else if d <? 59 + l then 1
  else if d <? 90 + l then 2
  else if d <? 120 + l then 3
  else if d <? 151 + l then 4
  else if d <? 181 + l then 5
  else if d <? 212 + l then 6
  else if d <? 243 + l then 7
  else if d <? 273 + l then 8
  else if d <? 304 + l then 9
  else if d <? 334 + l then 10
  else 11.

Definition DateFromTime (t : Z) : Z :=
  let d := DayWithinYear t in
  let l := InLeapYear t in
  match MonthFromTime t with
  | 0 => d + 1
  | 1 => d - 30
  | 2 => d - 58 - l
  | 3 => d - 89 - l
  | 4 => d - 119 - l
  | 5 => d - 150 - l
  | 6 => d - 180 - l
  | 7 => d - 211 - l
  | 8 => d - 242 - l
  | 9 => d - 272 - l
  | 10 => d - 303 - l
  | _ => d - 333 - l
  end.

Definition HourFromTime (t : Z) : Z := (t / msPerHour) mod 24.
Definition MinFromTime (t : Z) : Z := (t / msPerMinute) mod 60.
Definition SecFromTime (t : Z) : Z := (t / msPerSecond) mod 60.
Definition msFromTime (t : Z) : Z := t mod msPerSecond.

(** The year of the ISO format: four digits from 0000 to 9999, otherwise a
    sign and six digits. *)
Definition isoYear (y : Z) : jsstring :=
  if (0 <=? y) && (y <=? 9999) then digitChars (padDigits 4 y)
  else signChars y ++ digitChars (padDigits 6 (Z.abs y)).

(** The date part of the ISO format, [YYYY-MM-DD]. *)
Definition isoDate (y m d : Z) : jsstring :=
  isoYear y ++ lit "-" ++ digitChars (padDigits 2 m) ++ lit "-" ++
  digitChars (padDigits 2 d).

(** Date.prototype.toISOString(), on the time value of a valid date. *)
Definition toISOString (tv : Z) : jsstring :=
  isoDate (YearFromTime tv) (MonthFromTime tv + 1) (DateFromTime tv) ++
  lit "T" ++ digitChars (padDigits 2 (HourFromTime tv)) ++
  lit ":" ++ digitChars (padDigits 2 (MinFromTime tv)) ++
  lit ":" ++ digitChars (padDigits 2 (SecFromTime tv)) ++
  lit "." ++ digitChars (padDigits 3 (msFromTime tv)) ++ lit "Z".

(** The clock and the time zone of the host. *)
Record host := {
  now : Z;             (* the current time value, UTC *)
  timezoneOffset : Z   (* local time minus UTC, in minutes *)
}.

(** [new Date()]: the time value of the current time. *)
Definition newDate (h : host) : Z := now h.

(** LocalTime(t): what the local-time accessors of a Date read. *)
Definition LocalTime (h : host) (t : Z) : Z := t + timezoneOffset h * msPerMinute.

End JS.

Import JS.

(* ===================================================================== *)
(** * The records the hooks supply                                        *)
(* ===================================================================== *)

(** Modelled from the spec: the status of a sale, [Sale['status']] of
    [hooks/useSales]; the component offers these three values. *)
Inductive Status := Completed | Pending | Cancelled.

Module Product.
(** Modelled from the spec: the product record of [hooks/useProducts],
    with the fields that the component reads. *)
Record t := {
  id : jsstring;
  name : jsstring;
  sellPrice : jsstring
}.
End Product.

Module Purchase.
(** Modelled from the spec: the purchase record of [hooks/usePurchases],
    with the fields that the component reads. *)
Record t := {
  productId : jsstring;
  quantity : Z
}.
End Purchase.

Module SalesReturn.
(** Modelled from the spec: the sales-return record of
    [hooks/useSalesReturns], with the fields that the component reads. *)
Record t := {
  productId : jsstring;
  returnQuantity : Z
}.
End SalesReturn.

Module Sale.
(** Modelled from the spec: the sale record of [hooks/useSales]. *)
Record t := {
  id : jsstring;
  productId : jsstring;
  productName : jsstring;
  quantity : Z;
  unitPrice : jsstring;
  totalAmount : jsstring;
  date : jsstring;
  status : Status;
  customerName : jsstring;
  notes : jsstring
}.
End Sale.

Module SaleData.
(** [Omit<Sale, 'id'>]: what [handleSubmit] builds and hands over. *)
Record t := {
  productId : jsstring;
  productName : jsstring;
  quantity : Z;
  unitPrice : jsstring;
  totalAmount : jsstring;
  date : jsstring;
  status : Status;
  customerName : jsstring;
  notes : jsstring
}.
End SaleData.

(* ===================================================================== *)
(** * The component                                                       *)
(* ===================================================================== *)

Module FormData.
(** The state of [useState]. *)
Record t := {
  productId : jsstring;
  quantity : Z;
  unitPrice : jsstring;
  customerName : jsstring;
  status : Status;
  notes : jsstring
}.
End FormData.

(** The initial value of [formData]. *)
Definition initialFormData : FormData.t := {|
  FormData.productId := [];
  FormData.quantity := 1;
  FormData.unitPrice := [];
  FormData.customerName := [];
  FormData.status := Completed;
  FormData.notes := []
|}.

(** A call that a handler makes on the event or on a prop of the
    component. *)
Inductive call :=
  | PreventDefault
  | OnSaleCreated (sale : SaleData.t)
  | OnOpenChange (open : bool).

(** The code units that the class of the currency pattern matches: the
    dollar sign U+0024 and the taka sign U+09F3. *)
Definition isCurrencySymbol (c : code_unit) : bool :=
  ((c =? 36) || (c =? 2547))%N.

(** [s.replace(pattern, '')] for that pattern with the flag [g]: every
    match is removed. *)
Definition stripCurrency (s : jsstring) : jsstring :=
  filter (fun c => negb (isCurrencySymbol c)) s.

Section CreateSaleDialog.

(** What the four hooks return in the current render. *)
Variable products : list Product.t.
Variable sales : list Sale.t.
Variable purchases : list Purchase.t.
Variable salesReturns : list SalesReturn.t.

Definition getCalculatedStock (productId : jsstring) : Z :=
  let productSales :=
    filter (fun sale => str_eqb (Sale.productId sale) productId) sales in
  let productPurchases :=
    filter (fun purchase => str_eqb (Purchase.productId purchase) productId)
      purchases in
  let productReturns :=
    filter (fun returnItem => str_eqb (SalesReturn.productId returnItem) productId)
      salesReturns in
  let totalSold :=
    fold_left (fun sum sale => sum + Sale.quantity sale) productSales 0 in
  let totalPurchased :=
    fold_left (fun sum purchase => sum + Purchase.quantity purchase)
      productPurchases 0 in
  let totalReturned :=
    fold_left (fun sum returnItem => sum + SalesReturn.returnQuantity returnItem)
      productReturns 0 in
  totalPurchased + totalReturned - totalSold.

(** The values derived from [formData] in each render. *)

Definition selectedProduct (formData : FormData.t) : option Product.t :=
  find (fun p => str_eqb (Product.id p) (FormData.productId formData)) products.

Definition unitPrice (formData : FormData.t) : number :=
  if truthy (FormData.unitPrice formData)
  then parseFloat (FormData.unitPrice formData)
  else S754_zero false.

Definition totalAmount (formData : FormData.t) : number :=
  mul (unitPrice formData) (Number_of_Z (FormData.quantity formData)).

Definition availableStock (formData : FormData.t) : Z :=
  match selectedProduct formData with
  | Some p => getCalculatedStock (Product.id p)
  | None => 0
  end.

Definition isQuantityValid (formData : FormData.t) : bool :=
  FormData.quantity formData <=? availableStock formData.

(** The handlers: the next [formData] and the calls made. *)

Definition handleProductChange (productId : jsstring) (formData : FormData.t)
  : FormData.t :=
  let product := find (fun p => str_eqb (Product.id p) productId) products in
  {| FormData.productId := productId;
     FormData.quantity := 1;
     FormData.unitPrice :=
       match product with
       | Some p => stripCurrency (Product.sellPrice p)
       | None => []
       end;
     FormData.customerName := FormData.customerName formData;
     FormData.status := FormData.status formData;
     FormData.notes := FormData.notes formData |}.

Definition handleQuantityChange (value : jsstring) (formData : FormData.t)
  : FormData.t :=
  let newQuantity := orOne (parseInt value) in
  {| FormData.productId := FormData.productId formData;
     FormData.quantity := Z.min newQuantity (availableStock formData);
     FormData.unitPrice := FormData.unitPrice formData;
     FormData.customerName := FormData.customerName formData;
     FormData.status := FormData.status formData;
     FormData.notes := FormData.notes formData |}.

Definition handleSubmit (h : host) (formData : FormData.t)
  : completion (FormData.t * list call) :=
  match selectedProduct formData with
  | None => Normal (formData, [PreventDefault])
  | Some product =>
      if negb (truthy (FormData.unitPrice formData))
         || negb (isQuantityValid formData)
      then Normal (formData, [PreventDefault])
      else
        price <- toFixed (parseFloat (FormData.unitPrice formData)) 2 ;;
        total <- toFixed (totalAmount formData) 2 ;;
        let saleData := {|
          SaleData.productId := FormData.productId formData;
          SaleData.productName := Product.name product;
          SaleData.quantity := FormData.quantity formData;
          SaleData.unitPrice := price;
          SaleData.totalAmount := total;
          SaleData.date := nth 0 (split 84 (toISOString (newDate h))) [];
          SaleData.status := FormData.status formData;
          SaleData.customerName := FormData.customerName formData;
          SaleData.notes := FormData.notes formData |} in
        Normal (initialFormData,
                [PreventDefault; OnSaleCreated saleData; OnOpenChange false])
  end.

(** The [onChange] handlers written in place in the markup. *)

Definition setUnitPrice (value : jsstring) (formData : FormData.t) : FormData.t :=
  {| FormData.productId := FormData.productId formData;
     FormData.quantity := FormData.quantity formData;
     FormData.unitPrice := value;
     FormData.customerName := FormData.customerName formData;
     FormData.status := FormData.status formData;
     FormData.notes := FormData.notes formData |}.

Definition setCustomerName (value : jsstring) (formData : FormData.t) : FormData.t :=
  {| FormData.productId := FormData.productId formData;
     FormData.quantity := FormData.quantity formData;
     FormData.unitPrice := FormData.unitPrice formData;
     FormData.customerName := value;
     FormData.status := FormData.status formData;
     FormData.notes := FormData.notes formData |}.

Definition setStatus (value : Status) (formData : FormData.t) : FormData.t :=
  {| FormData.productId := FormData.productId formData;
     FormData.quantity := FormData.quantity formData;
     FormData.unitPrice := FormData.unitPrice formData;
     FormData.customerName := FormData.customerName formData;
     FormData.status := value;
     FormData.notes := FormData.notes formData |}.

Definition setNotes (value : jsstring) (formData : FormData.t) : FormData.t :=
  {| FormData.productId := FormData.productId formData;
     FormData.quantity := FormData.quantity formData;
     FormData.unitPrice := FormData.unitPrice formData;
     FormData.customerName := FormData.customerName formData;
     FormData.status := FormData.status formData;
     FormData.notes := value |}.

(** The [onClick] of the Cancel button. *)
Definition cancel (formData : FormData.t) : FormData.t * list call :=
  (formData, [OnOpenChange false]).

(** The [disabled] attribute of the submit button. *)
Definition submitDisabled (formData : FormData.t) : bool :=
  negb (truthy (FormData.productId formData))
  || negb (truthy (FormData.unitPrice formData))
  || negb (isQuantityValid formData).

End CreateSaleDialog.

(** A session of the dialog: what the user and the parent do to the
    mounted component.  [Rerender] is the parent rendering the component
    again with a new value of the prop [open]; [DialogOpenChange] is the
    dialog asking to be opened or closed, which the component passes on. *)
Inductive event :=
  | ProductChange (productId : jsstring)
  | QuantityChange (value : jsstring)
  | UnitPriceChange (value : jsstring)
  | CustomerNameChange (value : jsstring)
  | StatusChange (value : Status)
  | NotesChange (value : jsstring)
  | Submit
  | Cancel
  | DialogOpenChange (open : bool)
  | Rerender (open : bool).

Definition isEdit (ev : event) : bool :=
  match ev with
  | ProductChange _ | QuantityChange _ | UnitPriceChange _
  | CustomerNameChange _ | StatusChange _ | NotesChange _ => true
  | _ => false
  end.

Section Session.

Variable products : list Product.t.
Variable sales : list Sale.t.
Variable purchases : list Purchase.t.
Variable salesReturns : list SalesReturn.t.
Variable h : host.

Definition step (ev : event) (formData : FormData.t)
  : completion (FormData.t * list call) :=
  match ev with
  | ProductChange productId =>
      Normal (handleProductChange products productId formData, [])
  | QuantityChange value =>
      Normal (handleQuantityChange products sales purchases salesReturns
                value formData, [])
  | UnitPriceChange value => Normal (setUnitPrice value formData, [])
  | CustomerNameChange value => Normal (setCustomerName value formData, [])
  | StatusChange value => Normal (setStatus value formData, [])
  | NotesChange value => Normal (setNotes value formData, [])
  | Submit => handleSubmit products sales purchases salesReturns h formData
  | Cancel => Normal (cancel formData)
  | DialogOpenChange open => Normal (formData, [OnOpenChange open])
  | Rerender _ => Normal (formData, [])
  end.

(** A run of events: the final state and all the calls made, in order. *)
Fixpoint run (evs : list event) (formData : FormData.t)
  : completion (FormData.t * list call) :=
  match evs with
  | [] => Normal (formData, [])
  | ev :: evs' =>
      r <- step ev formData ;;
      r' <- run evs' (fst r) ;;
      Normal (fst r', snd r ++ snd r')
  end.

End Session.

(* ===================================================================== *)
(** * What the specification says, in its own words                       *)
(* ===================================================================== *)

(** The sum of [qty] over the records of [l] whose product is [productId]. *)
Fixpoint sumOver {A : Type} (pid : A -> jsstring) (qty : A -> Z)
    (productId : jsstring) (l : list A) : Z :=
  match l with
  | [] => 0
  | x :: l' =>
      (if list_eq_dec N.eq_dec (pid x) productId then qty x else 0)
      + sumOver pid qty productId l'
  end.

Definition totalPurchased (purchases : list Purchase.t) (P : jsstring) : Z :=
  sumOver Purchase.productId Purchase.quantity P purchases.

Definition totalReturned (salesReturns : list SalesReturn.t) (P : jsstring) : Z :=
  sumOver SalesReturn.productId SalesReturn.returnQuantity P salesReturns.

Definition totalSold (sales : list Sale.t) (P : jsstring) : Z :=
  sumOver Sale.productId Sale.quantity P sales.

(* ===================================================================== *)
(** * Properties of the built-ins                                         *)
(* ===================================================================== *)

Lemma str_eqb_spec (a b : jsstring) : reflect (a = b) (str_eqb a b).
Proof.
  revert b; induction a as [|x a IH]; intros [|y b]; simpl;
    try (constructor; congruence).
  destruct (N.eqb_spec x y) as [->|Hxy]; simpl.
  - destruct (IH b) as [->|Hab]; constructor; congruence.
  - constructor; congruence.
Qed.

Lemma str_eqb_refl (a : jsstring) : str_eqb a a = true.
Proof. destruct (str_eqb_spec a a); congruence. Qed.

Lemma truthy_false (s : jsstring) : truthy s = false <-> s = [].
Proof. destruct s; simpl; split; congruence. Qed.

(** [toFixed] with two fraction digits returns. *)
Lemma toFixed_2_returns (x : number) : exists s, toFixed x 2 = Normal s.
Proof. unfold toFixed; simpl; eauto. Qed.

(* ===================================================================== *)
(** * The stock of a product                                              *)
(* ===================================================================== *)

Section Sums.

Context {A : Type} (pid : A -> jsstring) (qty : A -> Z).

(** [reduce] over the filtered array, from any start value. *)
Lemma reduce_filter_sumOver (productId : jsstring) (l : list A) (start : Z) :
  fold_left (fun sum x => sum + qty x)
    (filter (fun x => str_eqb (pid x) productId) l) start
  = start + sumOver pid qty productId l.
Proof.
  revert start; induction l as [|x l IH]; intros start; simpl.
  - lia.
  - destruct (str_eqb_spec (pid x) productId) as [E|E];
      destruct (list_eq_dec N.eq_dec (pid x) productId) as [E'|E'];
      try contradiction; simpl; rewrite IH; lia.
Qed.

End Sums.


(** The example of the specification: purchases of 50, returns of 2 and
    sales of 10 leave a stock of 42. *)
Definition exampleProducts : list Product.t :=
  [ {| Product.id := lit "A"; Product.name := lit "Product A";
       Product.sellPrice := lit "$19.999" |};
    {| Product.id := lit "B"; Product.name := lit "Product B";
       Product.sellPrice := lit "120" |} ].

Definition exampleSale (pid : string) (q : Z) : Sale.t :=
  {| Sale.id := lit "S"; Sale.productId := lit pid;
     Sale.productName := lit "Product"; Sale.quantity := q;
     Sale.unitPrice := lit "1.00"; Sale.totalAmount := lit "1.00";
     Sale.date := lit "2024-05-01"; Sale.status := Completed;
     Sale.customerName := []; Sale.notes := [] |}.

Definition exampleSales : list Sale.t :=
  [ exampleSale "A" 4; exampleSale "B" 1; exampleSale "A" 6 ].

Definition examplePurchases : list Purchase.t :=
  [ {| Purchase.productId := lit "A"; Purchase.quantity := 30 |};
    {| Purchase.productId := lit "B"; Purchase.quantity := 1 |};
    {| Purchase.productId := lit "A"; Purchase.quantity := 20 |} ].

Definition exampleReturns : list SalesReturn.t :=
  [ {| SalesReturn.productId := lit "A"; SalesReturn.returnQuantity := 2 |} ].

Example stock_of_A :
  getCalculatedStock exampleSales examplePurchases exampleReturns (lit "A") = 42.
Proof. reflexivity. Qed.

Example stock_of_B :
  getCalculatedStock exampleSales examplePurchases exampleReturns (lit "B") = 0.
Proof. reflexivity. Qed.

(* ===================================================================== *)
(** * The handlers                                                        *)
(* ===================================================================== *)

(** Unfolding the derived values and the handlers. *)
Ltac unfold_derived :=
  unfold submitDisabled, isQuantityValid, availableStock, selectedProduct in *.
Ltac unfold_handleSubmit := unfold handleSubmit.
Ltac unfold_isQuantityValid := unfold isQuantityValid.
Ltac unfold_submitDisabled := unfold submitDisabled.
Ltac unfold_handleProductChange := unfold handleProductChange.

Section Handlers.

Variable products : list Product.t.
Variable sales : list Sale.t.
Variable purchases : list Purchase.t.
Variable salesReturns : list SalesReturn.t.

Local Abbreviation availableStock :=
  (availableStock products sales purchases salesReturns).
Local Abbreviation isQuantityValid :=
  (isQuantityValid products sales purchases salesReturns).
Local Abbreviation handleQuantityChange :=
  (handleQuantityChange products sales purchases salesReturns).
Local Abbreviation handleSubmit :=
  (handleSubmit products sales purchases salesReturns).
Local Abbreviation submitDisabled :=
  (submitDisabled products sales purchases salesReturns).
Local Abbreviation selectedProduct := (selectedProduct products).
Local Abbreviation handleProductChange := (handleProductChange products).

(** ** Changing the quantity *)

Lemma handleQuantityChange_frame (value : jsstring) (formData : FormData.t) :
  let formData' := handleQuantityChange value formData in
  FormData.productId formData' = FormData.productId formData
  /\ FormData.unitPrice formData' = FormData.unitPrice formData
  /\ FormData.customerName formData' = FormData.customerName formData
  /\ FormData.status formData' = FormData.status formData
  /\ FormData.notes formData' = FormData.notes formData.
Proof. simpl; repeat split. Qed.

(** The stock that a render reads depends on the selected product only. *)
Lemma availableStock_productId (f g : FormData.t) :
  FormData.productId f = FormData.productId g ->
  availableStock f = availableStock g.
Proof.
  intros E. unfold_derived. now rewrite E.
Qed.

Lemma availableStock_handleQuantityChange (value : jsstring) (formData : FormData.t) :
  availableStock (handleQuantityChange value formData) = availableStock formData.
Proof. apply availableStock_productId. reflexivity. Qed.


(** ** Submitting *)

(** The guard of [handleSubmit]. *)
Definition submitGuard (formData : FormData.t) : bool :=
  match selectedProduct formData with
  | Some _ => truthy (FormData.unitPrice formData) && isQuantityValid formData
  | None => false
  end.

Lemma submitGuard_true (formData : FormData.t) :
  submitGuard formData = true <->
  (exists p, selectedProduct formData = Some p)
  /\ truthy (FormData.unitPrice formData) = true
  /\ isQuantityValid formData = true.
Proof.
  unfold submitGuard. destruct (selectedProduct formData) as [p|].
  - rewrite andb_true_iff. split.
    + intros [H1 H2]. eauto.
    + intros (_ & H1 & H2). auto.
  - split; [discriminate|]. intros ([p Hp] & _). discriminate.
Qed.

Lemma handleSubmit_rejected (h : host) (formData : FormData.t) :
  submitGuard formData = false ->
  handleSubmit h formData = Normal (formData, [PreventDefault]).
Proof.
  unfold submitGuard. unfold_handleSubmit.
  destruct (selectedProduct formData) as [p|]; [|reflexivity].
  intros G. rewrite <- negb_andb, G. reflexivity.
Qed.

(** The record that a submission hands over. *)
Definition saleOf (h : host) (product : Product.t) (price total : jsstring)
    (formData : FormData.t) : SaleData.t :=
  {| SaleData.productId := FormData.productId formData;
     SaleData.productName := Product.name product;
     SaleData.quantity := FormData.quantity formData;
     SaleData.unitPrice := price;
     SaleData.totalAmount := total;
     SaleData.date := nth 0 (split 84 (toISOString (newDate h))) [];
     SaleData.status := FormData.status formData;
     SaleData.customerName := FormData.customerName formData;
     SaleData.notes := FormData.notes formData |}.

Lemma handleSubmit_accepted (h : host) (formData : FormData.t) (p : Product.t) :
  selectedProduct formData = Some p ->
  truthy (FormData.unitPrice formData) = true ->
  isQuantityValid formData = true ->
  exists price total,
    toFixed (parseFloat (FormData.unitPrice formData)) 2 = Normal price
    /\ toFixed (mul (parseFloat (FormData.unitPrice formData))
                  (Number_of_Z (FormData.quantity formData))) 2 = Normal total
    /\ handleSubmit h formData
       = Normal (initialFormData,
                 [PreventDefault;
                  OnSaleCreated (saleOf h p price total formData);
                  OnOpenChange false]).
Proof.
  intros Hp Hu Hq.
  destruct (toFixed_2_returns (parseFloat (FormData.unitPrice formData)))
    as [price Hprice].
  destruct (toFixed_2_returns
              (mul (parseFloat (FormData.unitPrice formData))
                 (Number_of_Z (FormData.quantity formData))))
    as [total Htotal].
  exists price, total. split; [exact Hprice|]. split; [exact Htotal|].
  unfold_handleSubmit.
  rewrite Hp, Hu, Hq. cbn [negb orb].
  unfold totalAmount, unitPrice. rewrite Hu, Hprice, Htotal.
  reflexivity.
Qed.

(** C4.  [handleSubmit] never throws, and unless a product is selected,
    the unit price is a non-empty string and the quantity is valid, it
    hands over no record, does not ask the dialog to close and leaves the
    form data as they are: all it does is prevent the default action of
    the event. *)
Theorem handleSubmit_guarded (h : host) (formData : FormData.t) :
  (exists r, handleSubmit h formData = Normal r)
  /\ (selectedProduct formData = None
      \/ FormData.unitPrice formData = []
      \/ isQuantityValid formData = false ->
      handleSubmit h formData = Normal (formData, [PreventDefault])
      /\ (forall sale, ~ In (OnSaleCreated sale) [PreventDefault])
      /\ (forall open, ~ In (OnOpenChange open) [PreventDefault])).
Proof.
  split.
  - destruct (submitGuard formData) eqn:G.
    + apply submitGuard_true in G. destruct G as ([p Hp] & Hu & Hq).
      destruct (handleSubmit_accepted h formData p Hp Hu Hq)
        as (price & total & _ & _ & E).
      eauto.
    + rewrite handleSubmit_rejected by exact G. eauto.
  - intros Hfail. split; [|split].
    + apply handleSubmit_rejected. unfold submitGuard.
      destruct (selectedProduct formData) as [p|]; [|reflexivity].
      destruct Hfail as [Hn | [Hu | Hq]].
      * discriminate.
      * rewrite Hu. reflexivity.
      * rewrite Hq. apply andb_false_r.
    + intros sale [E|[]]. discriminate.
    + intros open [E|[]]. discriminate.
Qed.

(** C7.  On every successful submit the handler hands the record to
    [onSaleCreated], then asks the dialog to close, and the form data
    become the defaults: no product, quantity 1, no unit price, status
    Completed, no customer name and no notes. *)
Theorem handleSubmit_resets (h : host) (formData : FormData.t) (p : Product.t) :
  selectedProduct formData = Some p ->
  truthy (FormData.unitPrice formData) = true ->
  isQuantityValid formData = true ->
  exists sale formData',
    handleSubmit h formData
    = Normal (formData',
              [PreventDefault; OnSaleCreated sale; OnOpenChange false])
    /\ FormData.productId formData' = []
    /\ FormData.quantity formData' = 1
    /\ FormData.unitPrice formData' = []
    /\ FormData.status formData' = Completed
    /\ FormData.customerName formData' = []
    /\ FormData.notes formData' = [].
Proof.
  intros Hp Hu Hq.
  destruct (handleSubmit_accepted h formData p Hp Hu Hq)
    as (price & total & _ & _ & E).
  exists (saleOf h p price total formData), initialFormData.
  split; [exact E|]. repeat split.
Qed.

(** ** Selecting a product *)

Lemma stripCurrency_clean (s : jsstring) (c : code_unit) :
  In c (stripCurrency s) -> In c s /\ c <> 36%N /\ c <> 2547%N.
Proof.
  unfold stripCurrency. rewrite filter_In. intros [Hin Hc].
  split; [exact Hin|].
  unfold isCurrencySymbol in Hc.
  rewrite negb_true_iff, orb_false_iff, !N.eqb_neq in Hc. exact Hc.
Qed.

Lemma stripCurrency_keeps (s : jsstring) (c : code_unit) :
  In c s -> c <> 36%N -> c <> 2547%N -> In c (stripCurrency s).
Proof.
  intros Hin H1 H2. unfold stripCurrency. rewrite filter_In.
  split; [exact Hin|]. unfold isCurrencySymbol.
  rewrite negb_true_iff, orb_false_iff, !N.eqb_neq. auto.
Qed.

(** The sell price with every dollar sign and every taka sign removed,
    in the words of the specification. *)
Fixpoint withoutCurrencySymbols (s : jsstring) : jsstring :=
  match s with
  | [] => []
  | c :: s' =>
      if N.eq_dec c 36 then withoutCurrencySymbols s'
      else if N.eq_dec c 2547 then withoutCurrencySymbols s'
      else c :: withoutCurrencySymbols s'
  end.

Lemma stripCurrency_without (s : jsstring) :
  stripCurrency s = withoutCurrencySymbols s.
Proof.
  induction s as [|c s IH]; [reflexivity|].
  unfold stripCurrency in *. simpl. unfold isCurrencySymbol at 1.
  destruct (N.eq_dec c 36) as [->|H36]; [simpl; exact IH|].
  destruct (N.eq_dec c 2547) as [->|H2547]; [simpl; exact IH|].
  apply N.eqb_neq in H36, H2547. rewrite H36, H2547. simpl.
  now rewrite IH.
Qed.

Lemma find_product_present (productId : jsstring) :
  (exists q, In q products /\ Product.id q = productId) ->
  exists p, find (fun p => str_eqb (Product.id p) productId) products = Some p
            /\ In p products /\ Product.id p = productId.
Proof.
  intros (q & Hin & Hid).
  destruct (find (fun p => str_eqb (Product.id p) productId) products)
    as [p|] eqn:F.
  - apply find_some in F. destruct F as [Hp Hb].
    exists p. repeat split; auto.
    now destruct (str_eqb_spec (Product.id p) productId).
  - exfalso. apply (find_none _ _ F) in Hin. simpl in Hin.
    rewrite Hid, str_eqb_refl in Hin. discriminate.
Qed.

(** C9.  For every product identifier that occurs in the product list,
    selecting it stores the identifier, sets the quantity to 1 and sets
    the unit price to the sell price of the product found for it (the
    first one in the list with that identifier) with every dollar sign
    and every taka sign removed; the customer name, the status and the
    notes stay as they are. *)
Theorem handleProductChange_prefills (productId : jsstring)
    (formData : FormData.t) :
  (exists q, In q products /\ Product.id q = productId) ->
  let formData' := handleProductChange productId formData in
  exists p,
    find (fun p => str_eqb (Product.id p) productId) products = Some p
    /\ In p products /\ Product.id p = productId
    /\ selectedProduct formData' = Some p
    /\ FormData.productId formData' = productId
    /\ FormData.quantity formData' = 1
    /\ FormData.unitPrice formData' = withoutCurrencySymbols (Product.sellPrice p)
    /\ (forall c, In c (FormData.unitPrice formData') <->
                  In c (Product.sellPrice p) /\ c <> 36%N /\ c <> 2547%N)
    /\ FormData.customerName formData' = FormData.customerName formData
    /\ FormData.status formData' = FormData.status formData
    /\ FormData.notes formData' = FormData.notes formData.
Proof.
  intros Hex. destruct (find_product_present productId Hex) as (p & F & Hin & Hid).
  exists p. unfold_derived. unfold_handleProductChange.
  cbn [FormData.productId FormData.quantity FormData.unitPrice
       FormData.customerName FormData.status FormData.notes].
  rewrite F.
  split; [reflexivity|]. split; [exact Hin|]. split; [exact Hid|].
  split; [reflexivity|]. split; [reflexivity|]. split; [reflexivity|].
  split; [apply stripCurrency_without|].
  split; [|repeat split].
  intros c. split.
  - apply stripCurrency_clean.
  - intros (H1 & H2 & H3). now apply stripCurrency_keeps.
Qed.

(** ** Quantity and stock at submission *)

(** A quantity above the stock keeps the submit button disabled and makes
    [handleSubmit] do nothing. *)
Lemma submit_blocked_over_stock (h : host) (formData : FormData.t) :
  availableStock formData < FormData.quantity formData ->
  isQuantityValid formData = false
  /\ submitDisabled formData = true
  /\ handleSubmit h formData = Normal (formData, [PreventDefault]).
Proof.
  intros Hlt.
  assert (Hq : isQuantityValid formData = false).
  { unfold_isQuantityValid. apply Z.leb_gt. exact Hlt. }
  split; [exact Hq|]. split.
  - unfold_submitDisabled. rewrite Hq.
    simpl. apply orb_true_r.
  - apply handleSubmit_rejected. unfold submitGuard.
    destruct (selectedProduct formData); [|reflexivity].
    rewrite Hq. apply andb_false_r.
Qed.

(** Without stock, the quantity that [useState] starts with and every
    quantity of at least 1 keep the submit button disabled. *)
Lemma submit_blocked_without_stock (formData : FormData.t) :
  availableStock formData = 0 -> 1 <= FormData.quantity formData ->
  submitDisabled formData = true.
Proof.
  intros H0 H1. unfold_submitDisabled.
  replace (isQuantityValid formData) with false.
  - simpl. apply orb_true_r.
  - symmetry. unfold_isQuantityValid. apply Z.leb_gt. lia.
Qed.

(** After a change of the quantity, the quantity is valid. *)
Lemma isQuantityValid_handleQuantityChange (q : jsstring) (formData : FormData.t) :
  isQuantityValid (handleQuantityChange q formData) = true.
Proof.
  unfold_isQuantityValid.
  rewrite availableStock_handleQuantityChange. simpl.
  apply Z.leb_le. apply Z.le_min_r.
Qed.


(** ** The amounts of the record *)


End Handlers.

(* ===================================================================== *)
(** * Sessions: cancelling and reopening                                  *)
(* ===================================================================== *)

Section Sessions.

Variable products : list Product.t.
Variable sales : list Sale.t.
Variable purchases : list Purchase.t.
Variable salesReturns : list SalesReturn.t.
Variable h : host.

Local Abbreviation step := (step products sales purchases salesReturns h).
Local Abbreviation run := (run products sales purchases salesReturns h).
Local Abbreviation submitGuard :=
  (submitGuard products sales purchases salesReturns).

(** Closing and reopening, in any order and any number of times, neither
    changes the form data nor hands over a record. *)
Definition isOpenClose (ev : event) : bool :=
  match ev with
  | Cancel | DialogOpenChange _ | Rerender _ => true
  | _ => false
  end.

Lemma run_open_close (evs : list event) (formData : FormData.t) :
  forallb isOpenClose evs = true ->
  exists calls,
    run evs formData = Normal (formData, calls)
    /\ forall sale, ~ In (OnSaleCreated sale) calls.
Proof.
  induction evs as [|ev evs IH]; simpl; intros Hall.
  - exists []. split; [reflexivity|]. intros sale [].
  - apply andb_true_iff in Hall. destruct Hall as [Hev Hevs].
    destruct (IH Hevs) as (calls & E & Hno).
    destruct ev; try discriminate; simpl; rewrite E; simpl.
    + exists (OnOpenChange false :: calls). split; [reflexivity|].
      intros sale [D|Hin]; [discriminate | exact (Hno sale Hin)].
    + exists (OnOpenChange open :: calls). split; [reflexivity|].
      intros sale [D|Hin]; [discriminate | exact (Hno sale Hin)].
    + exists calls. split; [reflexivity | exact Hno].
Qed.

(** Of the events that are not edits of a field, only a submit whose
    guard holds changes the form data, and it sets them to the
    defaults. *)
Lemma only_submit_resets (ev : event) (formData formData' : FormData.t)
    (calls : list call) :
  isEdit ev = false ->
  step ev formData = Normal (formData', calls) ->
  formData' <> formData ->
  ev = Submit /\ submitGuard formData = true /\ formData' = initialFormData.
Proof.
  intros Hedit Hstep Hne.
  destruct ev; try discriminate; simpl in Hstep;
    try (injection Hstep as <- <-; congruence).
  destruct (submitGuard formData) eqn:G.
  - apply submitGuard_true in G. destruct G as ([p Hp] & Hu & Hq).
    destruct (handleSubmit_accepted products sales purchases salesReturns
                h formData p Hp Hu Hq) as (price & total & _ & _ & E).
    rewrite E in Hstep. injection Hstep as <- <-.
    repeat split.
  - rewrite handleSubmit_rejected in Hstep by exact G.
    injection Hstep as <- <-. congruence.
Qed.

(** C8.  The Cancel button asks the dialog to close, hands over no
    record and leaves every field of the form data as it is; the form
    data are reset by a successful submit only, so that after a cancel
    the reopened dialog renders the field values it had before. *)
Theorem cancel_keeps_formData (formData : FormData.t) :
  cancel formData = (formData, [OnOpenChange false])
  /\ (forall sale, ~ In (OnSaleCreated sale) (snd (cancel formData)))
  /\ run [Cancel; Rerender false; Rerender true] formData
     = Normal (formData, [OnOpenChange false])
  /\ (forall ev formData' calls,
        isEdit ev = false ->
        step ev formData = Normal (formData', calls) ->
        formData' <> formData ->
        ev = Submit /\ submitGuard formData = true
        /\ formData' = initialFormData).
Proof.
  split; [reflexivity|]. split; [|split].
  - intros sale [D|[]]. discriminate.
  - reflexivity.
  - intros ev formData' calls. apply only_submit_resets.
Qed.

End Sessions.

(* ===================================================================== *)
(** * The date of a sale                                                  *)
(* ===================================================================== *)

(** ** The calendar, in its own terms *)

(** The length of the month [m], from 1 to 12, of the year [y]. *)
Definition daysInMonth (y m : Z) : Z :=
  match m with
  | 2 => if isLeapYear y then 29 else 28
  | 4 | 6 | 9 | 11 => 30
  | _ => 31
  end.

(** The days of the year [y] that precede its month [m]. *)
Definition daysBeforeMonth (y m : Z) : Z :=
  fold_right Z.add 0
    (map (fun i => daysInMonth y (Z.of_nat i)) (seq 1 (Z.to_nat (m - 1)))).

(** The number of the day [d] of the month [m] of the year [y], counted
    from 1 January 1970, which is day 0. *)
Definition dayNumber (y m d : Z) : Z :=
  DayFromYear y + daysBeforeMonth y m + (d - 1).

(** ** Years *)

Lemma DayFromYear_epoch : DayFromYear 1970 = 0.
Proof. reflexivity. Qed.

Lemma DayFromYear_succ (y : Z) :
  DayFromYear (y + 1) = DayFromYear y + DaysInYear y.
Proof.
  unfold DayFromYear, DaysInYear, isLeapYear.
  destruct (Z.eqb_spec (y mod 4) 0); destruct (Z.eqb_spec (y mod 100) 0);
    destruct (Z.eqb_spec (y mod 400) 0); cbn [negb];
    Z.div_mod_to_equations; lia.
Qed.

Lemma DayFromYear_lt (y y' : Z) : y < y' -> DayFromYear y < DayFromYear y'.
Proof. unfold DayFromYear. intros Hlt. Z.div_mod_to_equations. lia. Qed.

(** [YearFromTime t] is the year that the day of [t] falls in. *)
Lemma YearFromTime_spec (t : Z) :
  DayFromYear (YearFromTime t) <= Day t < DayFromYear (YearFromTime t + 1).
Proof.
  unfold YearFromTime.
  set (d := Day t).
  set (y := 1970 + 400 * d / 146097).
  assert (Hlo : DayFromYear (y - 1) <= d)
    by (unfold DayFromYear, y; Z.div_mod_to_equations; lia).
  assert (Hhi : d < DayFromYear (y + 2))
    by (unfold DayFromYear, y; Z.div_mod_to_equations; lia).
  destruct (Z.ltb_spec d (DayFromYear y)).
  - replace (y - 1 + 1) with y by lia. lia.
  - destruct (Z.leb_spec (DayFromYear (y + 1)) d).
    + replace (y + 1 + 1) with (y + 2) by lia. lia.
    + lia.
Qed.

(** It is the largest year that starts at or before [t]. *)
Lemma YearFromTime_largest (t y : Z) :
  TimeFromYear y <= t <-> y <= YearFromTime t.
Proof.
  pose proof (YearFromTime_spec t) as [Hlo Hhi].
  assert (Hd : TimeFromYear y <= t <-> DayFromYear y <= Day t).
  { unfold TimeFromYear, Day, msPerDay. split; intros H.
    - apply Z.div_le_lower_bound; lia.
    - Z.div_mod_to_equations. lia. }
  rewrite Hd. split; intros H.
  - destruct (Z.le_gt_cases y (YearFromTime t)) as [|Hgt]; [assumption|].
    assert (YearFromTime t + 1 <= y) by lia.
    destruct (Z.eq_dec (YearFromTime t + 1) y) as [<-|Hne]; [lia|].
    pose proof (DayFromYear_lt (YearFromTime t + 1) y). lia.
  - destruct (Z.eq_dec y (YearFromTime t)) as [->|Hne]; [assumption|].
    pose proof (DayFromYear_lt y (YearFromTime t)). lia.
Qed.

Lemma YearFromTime_range (t lo hi : Z) :
  TimeFromYear lo <= t < TimeFromYear hi ->
  lo <= YearFromTime t < hi.
Proof.
  intros [Hlo Hhi]. split.
  - apply YearFromTime_largest. exact Hlo.
  - destruct (Z.lt_ge_cases (YearFromTime t) hi) as [|Hge]; [assumption|].
    apply YearFromTime_largest in Hge. lia.
Qed.

Lemma DayWithinYear_range (t : Z) :
  0 <= DayWithinYear t < DaysInYear (YearFromTime t).
Proof.
  unfold DayWithinYear. pose proof (YearFromTime_spec t) as H.
  rewrite DayFromYear_succ in H. lia.
Qed.

(** ** Months and days *)

(** The month and the day of the month that [t] falls on are a date of
    the calendar, and the number of that date is the day of [t]. *)
Lemma civil_date_of_time (t : Z) :
  let y := YearFromTime t in
  let m := MonthFromTime t + 1 in
  let d := DateFromTime t in
  1 <= m <= 12 /\ 1 <= d <= daysInMonth y m /\ dayNumber y m d = Day t.
Proof.
  intros y m d. subst m d.
  pose proof (DayWithinYear_range t) as Hr.
  unfold dayNumber, DateFromTime, MonthFromTime, InLeapYear, DaysInYear in *.
  fold y in Hr |- *.
  assert (Hday : Day t = DayFromYear y + DayWithinYear t)
    by (unfold DayWithinYear; fold y; lia).
  rewrite Hday. clear Hday.
  set (w := DayWithinYear t) in *. clearbody w.
  unfold daysBeforeMonth, daysInMonth.
  destruct (isLeapYear y); cbn [Z.add Z.mul Pos.add Pos.mul Pos.succ] in *;
    repeat match goal with
           | |- context [if ?c <? ?k then _ else _] =>
               destruct (Z.ltb_spec c k)
           end;
    cbn [Z.add Pos.add Pos.succ];
    match goal with
    | |- context [fold_right Z.add 0 ?l] =>
        let v := eval vm_compute in (fold_right Z.add 0 l) in
        change (fold_right Z.add 0 l) with v
    end;
    lia.
Qed.

(** ** Digits *)

Lemma padDigits_length (w : nat) (n : Z) : length (padDigits w n) = w.
Proof.
  revert n; induction w as [|w IH]; intros n; simpl; [reflexivity|].
  rewrite length_app, IH. simpl. lia.
Qed.

Lemma padDigits_digits (w : nat) (n : Z) :
  Forall (fun d => 0 <= d <= 9) (padDigits w n).
Proof.
  revert n; induction w as [|w IH]; intros n; simpl; [constructor|].
  apply Forall_app. split; [apply IH|].
  constructor; [|constructor]. Z.div_mod_to_equations. lia.
Qed.

Lemma digitsValue_app (R : Z) (ds : list Z) (d : Z) :
  digitsValue R (ds ++ [d]) = digitsValue R ds * R + d.
Proof. unfold digitsValue. rewrite fold_left_app. reflexivity. Qed.

(** The padded digits of a number that fits are the digits of that
    number. *)
Lemma padDigits_value (w : nat) (n : Z) :
  0 <= n < 10 ^ Z.of_nat w -> digitsValue 10 (padDigits w n) = n.
Proof.
  revert n; induction w as [|w IH]; intros n Hn.
  - simpl in *. unfold digitsValue. simpl. lia.
  - cbn [padDigits]. rewrite digitsValue_app, IH.
    + Z.div_mod_to_equations. lia.
    + rewrite Nat2Z.inj_succ, Z.pow_succ_r in Hn by lia.
      Z.div_mod_to_equations. lia.
Qed.

Lemma digitChars_not_T (ds : list Z) :
  Forall (fun d => 0 <= d <= 9) ds ->
  Forall (fun c => c <> 84%N) (digitChars ds).
Proof.
  unfold digitChars. induction 1 as [|d ds Hd _ IH]; simpl; constructor.
  - unfold digitChar. lia.
  - exact IH.
Qed.

(** ** Splitting at the first T *)

Lemma splitAux_first (sep : code_unit) (a rest cur : jsstring) :
  Forall (fun c => c <> sep) a ->
  splitAux sep (a ++ sep :: rest) cur
  = (rev cur ++ a) :: splitAux sep rest [].
Proof.
  intros Ha. revert cur.
  induction Ha as [|c a Hc _ IH]; intros cur; simpl.
  - rewrite N.eqb_refl, app_nil_r. reflexivity.
  - apply N.eqb_neq in Hc. rewrite Hc, IH. simpl.
    rewrite <- app_assoc. reflexivity.
Qed.

Lemma split_nonempty (sep : code_unit) (s : jsstring) : split sep s <> [].
Proof.
  unfold split. generalize (@nil N) as cur.
  induction s as [|c s IH]; intros cur; simpl; [discriminate|].
  destruct (c =? sep)%N; [discriminate | apply IH].
Qed.

Lemma isoDate_not_T (y m d : Z) :
  Forall (fun c => c <> 84%N) (isoDate y m d).
Proof.
  unfold isoDate, isoYear, signChars.
  repeat (apply Forall_app; split);
    try (apply digitChars_not_T, padDigits_digits);
    try (repeat constructor; discriminate).
  destruct ((0 <=? y) && (y <=? 9999)).
  - apply digitChars_not_T, padDigits_digits.
  - apply Forall_app. split.
    + destruct (y <? 0); repeat constructor; discriminate.
    + apply digitChars_not_T, padDigits_digits.
Qed.

(** The date part of the ISO format is what precedes the first T. *)
Lemma toISOString_date (tv : Z) :
  nth 0 (split 84 (toISOString tv)) []
  = isoDate (YearFromTime tv) (MonthFromTime tv + 1) (DateFromTime tv).
Proof.
  unfold toISOString, split.
  change (lit "T" ++ ?r) with (84%N :: r).
  rewrite splitAux_first by apply isoDate_not_T.
  reflexivity.
Qed.

Section SaleDate.

Variable products : list Product.t.
Variable sales : list Sale.t.
Variable purchases : list Purchase.t.
Variable salesReturns : list SalesReturn.t.

Local Abbreviation handleSubmit :=
  (handleSubmit products sales purchases salesReturns).
Local Abbreviation submitGuard :=
  (submitGuard products sales purchases salesReturns).

(** The record of a submission, whenever one is handed over, carries the
    date part of the ISO format of the clock reading. *)
Lemma handleSubmit_date (h : host) (formData formData' : FormData.t)
    (calls : list call) (sale : SaleData.t) :
  handleSubmit h formData = Normal (formData', calls) ->
  In (OnSaleCreated sale) calls ->
  SaleData.date sale
  = isoDate (YearFromTime (now h)) (MonthFromTime (now h) + 1)
      (DateFromTime (now h)).
Proof.
  intros E Hin. destruct (submitGuard formData) eqn:G.
  - apply submitGuard_true in G. destruct G as ([p Hp] & Hu & Hq).
    destruct (handleSubmit_accepted products sales purchases salesReturns
                h formData p Hp Hu Hq) as (price & total & _ & _ & E').
    rewrite E' in E. injection E as <- <-.
    destruct Hin as [D | [D | [D | []]]]; try discriminate.
    injection D as <-. simpl. apply toISOString_date.
  - rewrite handleSubmit_rejected in E by exact G.
    injection E as <- <-. destruct Hin as [D | []]. discriminate.
Qed.

(** C10.  Whatever the offset [tz] of the local time zone, the date of
    every record handed over is the calendar date, in universal time,
    of the moment [t] of the submission, written as four digits of the
    year, two of the month and two of the day with hyphens between; the
    years are those that have four digits, 0000 to 9999. *)
Theorem submit_date_is_utc_date (t tz : Z) (formData formData' : FormData.t)
    (calls : list call) (sale : SaleData.t) :
  handleSubmit {| now := t; timezoneOffset := tz |} formData
    = Normal (formData', calls) ->
  In (OnSaleCreated sale) calls ->
  TimeFromYear 0 <= t < TimeFromYear 10000 ->
  exists y m d,
    0 <= y <= 9999 /\ 1 <= m <= 12 /\ 1 <= d <= daysInMonth y m
    /\ dayNumber y m d = Day t
    /\ SaleData.date sale
       = digitChars (padDigits 4 y) ++ lit "-" ++
         digitChars (padDigits 2 m) ++ lit "-" ++ digitChars (padDigits 2 d)
    /\ length (SaleData.date sale) = 10%nat.
Proof.
  intros E Hin Ht.
  pose proof (handleSubmit_date _ _ _ _ _ E Hin) as Hdate. simpl in Hdate.
  pose proof (YearFromTime_range t 0 10000 Ht) as Hy.
  destruct (civil_date_of_time t) as (Hm & Hd & Hn).
  exists (YearFromTime t), (MonthFromTime t + 1), (DateFromTime t).
  assert (Hiso : isoYear (YearFromTime t) = digitChars (padDigits 4 (YearFromTime t))).
  { unfold isoYear.
    replace ((0 <=? YearFromTime t) && (YearFromTime t <=? 9999)) with true;
      [reflexivity|].
    symmetry. apply andb_true_iff. split; apply Z.leb_le; lia. }
  unfold isoDate in Hdate. rewrite Hiso in Hdate.
  split; [lia|]. split; [exact Hm|]. split; [exact Hd|]. split; [exact Hn|].
  split; [exact Hdate|].
  rewrite Hdate. unfold digitChars.
  rewrite !length_app, !length_map, !padDigits_length. reflexivity.
Qed.

End SaleDate.

(** The calendar date of the local time zone at the same moment can be
    another one: half an hour before midnight in universal time it is
    already the next day six hours to the east. *)
Example local_date_differs :
  let h := {| now := 1710027000000; timezoneOffset := 360 |} in
  nth 0 (split 84 (toISOString (newDate h))) [] = lit "2024-03-09"
  /\ isoDate (YearFromTime (LocalTime h (now h)))
       (MonthFromTime (LocalTime h (now h)) + 1)
       (DateFromTime (LocalTime h (now h))) = lit "2024-03-10".
Proof. vm_compute. split; reflexivity. Qed.

(* ===================================================================== *)
(** * The example collections at work                                     *)
(* ===================================================================== *)

Definition exampleHost : host :=
  {| now := 1710027000000; timezoneOffset := 360 |}.

(** Product A, in stock, selected; then three of it asked for. *)
Definition formA : FormData.t :=
  handleProductChange exampleProducts (lit "A") initialFormData.

Definition formA3 : FormData.t :=
  handleQuantityChange exampleProducts exampleSales examplePurchases
    exampleReturns (lit "3") formA.

(** Product B, out of stock, selected; then five of it asked for. *)
Definition formB : FormData.t :=
  handleProductChange exampleProducts (lit "B") initialFormData.

Definition formB0 : FormData.t :=
  handleQuantityChange exampleProducts exampleSales examplePurchases
    exampleReturns (lit "5") formB.

(** The example of the specification: with a stock of 42, typing 100
    stores 42. *)
Example quantity_100_of_A :
  FormData.quantity
    (handleQuantityChange exampleProducts exampleSales examplePurchases
       exampleReturns (lit "100") formA) = 42.
Proof. reflexivity. Qed.

(** C2, at the input where the code departs from it.  Product B has no
    stock.  With the quantity 1 that the form starts with the submit
    button is disabled; once anything is typed into the quantity field the
    stored quantity is 0, the button is enabled, and a submit hands over a
    sale of quantity 0. *)
Theorem submit_enabled_without_stock :
  selectedProduct exampleProducts formB0 <> None
  /\ availableStock exampleProducts exampleSales examplePurchases
       exampleReturns formB0 = 0
  /\ submitDisabled exampleProducts exampleSales examplePurchases
       exampleReturns formB = true
  /\ FormData.quantity formB0 = 0
  /\ submitDisabled exampleProducts exampleSales examplePurchases
       exampleReturns formB0 = false
  /\ exists sale,
       handleSubmit exampleProducts exampleSales examplePurchases
         exampleReturns exampleHost formB0
       = Normal (initialFormData,
                 [PreventDefault; OnSaleCreated sale; OnOpenChange false])
       /\ SaleData.productId sale = lit "B"
       /\ SaleData.quantity sale = 0
       /\ SaleData.totalAmount sale = lit "0.00".
Proof.
  split; [vm_compute; discriminate|].
  repeat (split; [vm_compute; reflexivity|]).
  eexists. split; [vm_compute; reflexivity|].
  repeat split.
Qed.


(** ** The theorems at the example collections *)


Lemma handleSubmit_guarded_witness :
  selectedProduct exampleProducts initialFormData = None
  /\ handleSubmit exampleProducts exampleSales examplePurchases exampleReturns
       exampleHost initialFormData
     = Normal (initialFormData, [PreventDefault]).
Proof.
  split; [reflexivity|].
  apply (proj2 (handleSubmit_guarded exampleProducts exampleSales
                  examplePurchases exampleReturns exampleHost initialFormData)).
  left. reflexivity.
Defined.



Lemma handleSubmit_resets_witness :
  selectedProduct exampleProducts formA3
  = Some {| Product.id := lit "A"; Product.name := lit "Product A";
            Product.sellPrice := lit "$19.999" |}
  /\ truthy (FormData.unitPrice formA3) = true
  /\ isQuantityValid exampleProducts exampleSales examplePurchases
       exampleReturns formA3 = true
  /\ exists sale formData',
       handleSubmit exampleProducts exampleSales examplePurchases
         exampleReturns exampleHost formA3
       = Normal (formData',
                 [PreventDefault; OnSaleCreated sale; OnOpenChange false])
       /\ FormData.productId formData' = []
       /\ FormData.quantity formData' = 1
       /\ FormData.unitPrice formData' = []
       /\ FormData.status formData' = Completed
       /\ FormData.customerName formData' = []
       /\ FormData.notes formData' = [].
Proof.
  split; [reflexivity|]. split; [reflexivity|]. split; [reflexivity|].
  apply (handleSubmit_resets exampleProducts exampleSales examplePurchases
           exampleReturns exampleHost formA3
           {| Product.id := lit "A"; Product.name := lit "Product A";
              Product.sellPrice := lit "$19.999" |});
    reflexivity.
Defined.

Lemma cancel_keeps_formData_witness :
  isEdit Submit = false
  /\ step exampleProducts exampleSales examplePurchases exampleReturns
       exampleHost Cancel formA3 = Normal (formA3, [OnOpenChange false])
  /\ run exampleProducts exampleSales examplePurchases exampleReturns
       exampleHost [Cancel; Rerender false; Rerender true] formA3
     = Normal (formA3, [OnOpenChange false])
  /\ (forall formData' calls,
        step exampleProducts exampleSales examplePurchases exampleReturns
          exampleHost Submit formA3 = Normal (formData', calls) ->
        formData' <> formA3 -> formData' = initialFormData).
Proof.
  split; [reflexivity|]. split; [reflexivity|].
  pose proof (cancel_keeps_formData exampleProducts exampleSales
                examplePurchases exampleReturns exampleHost formA3)
    as (_ & _ & Hrun & Honly).
  split; [exact Hrun|].
  intros formData' calls Hstep Hne.
  apply (Honly Submit formData' calls eq_refl Hstep Hne).
Defined.

Lemma handleProductChange_prefills_witness :
  In {| Product.id := lit "A"; Product.name := lit "Product A";
        Product.sellPrice := lit "$19.999" |} exampleProducts
  /\ exists p,
       find (fun p => str_eqb (Product.id p) (lit "A")) exampleProducts = Some p
       /\ FormData.productId formA = lit "A"
       /\ FormData.quantity formA = 1
       /\ FormData.unitPrice formA = withoutCurrencySymbols (Product.sellPrice p)
       /\ FormData.unitPrice formA = lit "19.999".
Proof.
  split; [left; reflexivity|].
  assert (Hex : exists q, In q exampleProducts /\ Product.id q = lit "A").
  { exists {| Product.id := lit "A"; Product.name := lit "Product A";
              Product.sellPrice := lit "$19.999" |}.
    split.
    - left. reflexivity.
    - reflexivity. }
  pose proof (handleProductChange_prefills exampleProducts (lit "A")
                initialFormData Hex) as H.
  cbv zeta in H. destruct H as (p & F & _ & _ & _ & Hid & Hq & Hu & _).
  exists p.
  split; [exact F|]. split; [exact Hid|]. split; [exact Hq|].
  split; [exact Hu | reflexivity].
Defined.

Lemma submit_date_is_utc_date_witness :
  TimeFromYear 0 <= 1710027000000 < TimeFromYear 10000
  /\ exists sale y m d,
       handleSubmit exampleProducts exampleSales examplePurchases
         exampleReturns exampleHost formA3
       = Normal (initialFormData,
                 [PreventDefault; OnSaleCreated sale; OnOpenChange false])
       /\ dayNumber y m d = Day 1710027000000
       /\ SaleData.date sale
          = digitChars (padDigits 4 y) ++ lit "-" ++
            digitChars (padDigits 2 m) ++ lit "-" ++ digitChars (padDigits 2 d)
       /\ SaleData.date sale = lit "2024-03-09".
Proof.
  assert (Ht : TimeFromYear 0 <= 1710027000000 < TimeFromYear 10000)
    by (vm_compute; split; [discriminate | reflexivity]).
  split; [exact Ht|].
  eexists.
  assert (E : handleSubmit exampleProducts exampleSales examplePurchases
                exampleReturns exampleHost formA3
              = Normal (initialFormData,
                        [PreventDefault; OnSaleCreated _; OnOpenChange false]))
    by (vm_compute; reflexivity).
  destruct (submit_date_is_utc_date exampleProducts exampleSales
              examplePurchases exampleReturns 1710027000000 360 formA3 _ _ _
              E (or_intror (or_introl eq_refl)) Ht)
    as (y & m & d & _ & _ & _ & Hn & Hdate & _).
  exists y, m, d. split; [exact E|]. split; [exact Hn|]. split; [exact Hdate|].
  reflexivity.
Defined.

(* ===================================================================== *)
(** * More on the stock of a product                                      *)
(* ===================================================================== *)

Section StockSums.

Context {A : Type} (pid : A -> jsstring) (qty : A -> Z).



Lemma sumOver_absent (productId : jsstring) (l : list A) :
  (forall x, In x l -> pid x <> productId) -> sumOver pid qty productId l = 0.
Proof.
  induction l as [|x l IH]; intros Hno; simpl; [reflexivity|].
  destruct (list_eq_dec N.eq_dec (pid x) productId) as [E|_].
  - exfalso. apply (Hno x); [left; reflexivity | exact E].
  - rewrite IH; [reflexivity|]. intros y Hy. apply Hno. right. exact Hy.
Qed.

End StockSums.

(** The stock as the three sums, for the proofs below. *)
Lemma stock_as_sums (sales : list Sale.t) (purchases : list Purchase.t)
    (salesReturns : list SalesReturn.t) (P : jsstring) :
  getCalculatedStock sales purchases salesReturns P
  = sumOver Purchase.productId Purchase.quantity P purchases
    + sumOver SalesReturn.productId SalesReturn.returnQuantity P salesReturns
    - sumOver Sale.productId Sale.quantity P sales.
Proof.
  unfold getCalculatedStock. rewrite !reduce_filter_sumOver. lia.
Qed.




(** X4.  A product that no sale, no purchase and no sales return mentions
    has the stock 0; so has every product when the collections are
    empty. *)
Theorem getCalculatedStock_absent
    (sales : list Sale.t) (purchases : list Purchase.t)
    (salesReturns : list SalesReturn.t) (P : jsstring) :
  (forall sale, In sale sales -> Sale.productId sale <> P) ->
  (forall purchase, In purchase purchases -> Purchase.productId purchase <> P) ->
  (forall returnItem, In returnItem salesReturns ->
                      SalesReturn.productId returnItem <> P) ->
  getCalculatedStock sales purchases salesReturns P = 0.
Proof.
  intros Hs Hp Hr. rewrite stock_as_sums.
  rewrite (sumOver_absent _ _ P _ Hs), (sumOver_absent _ _ P _ Hp),
    (sumOver_absent _ _ P _ Hr).
  reflexivity.
Qed.

(* ===================================================================== *)
(** * What the component renders                                          *)
(* ===================================================================== *)

(** The interpolated values of an item of the product select: its value
    and the name, the sell price and the stock that its label shows. *)
Record productOption := {
  optionValue : jsstring;
  optionName : jsstring;
  optionPrice : jsstring;
  optionStock : Z
}.

(** The interpolated values of the sale summary. *)
Record summary := {
  summaryUnitPrice : jsstring;
  summaryQuantity : Z;
  summaryTotalAmount : jsstring
}.

Section Rendering.

Variable products : list Product.t.
Variable sales : list Sale.t.
Variable purchases : list Purchase.t.
Variable salesReturns : list SalesReturn.t.

(** The items of the product select, [products.map(...)]. *)
Definition productOptions : list productOption :=
  map (fun product =>
         let calculatedStock :=
           getCalculatedStock sales purchases salesReturns (Product.id product) in
         {| optionValue := Product.id product;
            optionName := Product.name product;
            optionPrice := Product.sellPrice product;
            optionStock := calculatedStock |})
      products.

(** The stock line under the select, rendered when a product is
    selected. *)
Definition availableStockLine (formData : FormData.t) : option Z :=
  match selectedProduct products formData with
  | Some _ => Some (availableStock products sales purchases salesReturns formData)
  | None => None
  end.

(** The message under the quantity input, rendered when the quantity is
    not valid, with the stock it mentions. *)
Definition quantityError (formData : FormData.t) : option Z :=
  if negb (isQuantityValid products sales purchases salesReturns formData)
  then Some (availableStock products sales purchases salesReturns formData)
  else None.

(** The sale summary, rendered when the unit price is not empty. *)
Definition saleSummary (formData : FormData.t) : option (completion summary) :=
  if truthy (FormData.unitPrice formData) then
    Some (price <- toFixed (parseFloat (FormData.unitPrice formData)) 2 ;;
          total <- toFixed (totalAmount formData) 2 ;;
          Normal {| summaryUnitPrice := price;
                    summaryQuantity := FormData.quantity formData;
                    summaryTotalAmount := total |})
  else None.

End Rendering.

(* ===================================================================== *)
(** * More on submitting                                                  *)
(* ===================================================================== *)

Ltac unfold_saleSummary := unfold saleSummary.
Ltac unfold_quantityError := unfold quantityError.
Ltac unfold_availableStockLine := unfold availableStockLine.
Ltac unfold_productOptions := unfold productOptions.
Ltac unfold_submitGuard := unfold submitGuard.
Ltac unfold_availableStock := unfold availableStock.

Section Submitting.

Variable products : list Product.t.
Variable sales : list Sale.t.
Variable purchases : list Purchase.t.
Variable salesReturns : list SalesReturn.t.

Local Abbreviation availableStock :=
  (availableStock products sales purchases salesReturns).
Local Abbreviation isQuantityValid :=
  (isQuantityValid products sales purchases salesReturns).
Local Abbreviation handleQuantityChange :=
  (handleQuantityChange products sales purchases salesReturns).
Local Abbreviation handleSubmit :=
  (handleSubmit products sales purchases salesReturns).
Local Abbreviation submitDisabled :=
  (submitDisabled products sales purchases salesReturns).
Local Abbreviation submitGuard :=
  (submitGuard products sales purchases salesReturns).
Local Abbreviation selectedProduct := (selectedProduct products).
Local Abbreviation handleProductChange := (handleProductChange products).
Local Abbreviation quantityError :=
  (quantityError products sales purchases salesReturns).

(** The selected product is a product of the list and has the identifier
    of the form data. *)
Lemma selectedProduct_some (formData : FormData.t) (p : Product.t) :
  selectedProduct formData = Some p ->
  In p products /\ Product.id p = FormData.productId formData.
Proof.
  unfold_derived. intros F. apply find_some in F. destruct F as [Hin Hb].
  split; [exact Hin|]. now destruct (str_eqb_spec (Product.id p)
                                        (FormData.productId formData)).
Qed.

Lemma availableStock_selected (formData : FormData.t) (p : Product.t) :
  selectedProduct formData = Some p ->
  availableStock formData
  = getCalculatedStock sales purchases salesReturns (FormData.productId formData).
Proof.
  intros F. destruct (selectedProduct_some formData p F) as [_ Hid].
  unfold_derived. rewrite F, Hid. reflexivity.
Qed.

(** What a submission that hands over a record was made of. *)
Lemma handleSubmit_emits (h : host) (formData formData' : FormData.t)
    (calls : list call) (sale : SaleData.t) :
  handleSubmit h formData = Normal (formData', calls) ->
  In (OnSaleCreated sale) calls ->
  exists p price total,
    selectedProduct formData = Some p
    /\ truthy (FormData.unitPrice formData) = true
    /\ isQuantityValid formData = true
    /\ toFixed (parseFloat (FormData.unitPrice formData)) 2 = Normal price
    /\ toFixed (mul (parseFloat (FormData.unitPrice formData))
                  (Number_of_Z (FormData.quantity formData))) 2 = Normal total
    /\ sale = saleOf h p price total formData
    /\ formData' = initialFormData
    /\ calls = [PreventDefault; OnSaleCreated sale; OnOpenChange false].
Proof.
  intros E Hin. destruct (submitGuard formData) eqn:G.
  - apply submitGuard_true in G. destruct G as ([p Hp] & Hu & Hq).
    destruct (handleSubmit_accepted products sales purchases salesReturns
                h formData p Hp Hu Hq) as (price & total & Hprice & Htotal & E').
    rewrite E' in E. injection E as <- <-.
    destruct Hin as [D | [D | [D | []]]]; try discriminate.
    injection D as <-.
    exists p, price, total. repeat split; assumption.
  - rewrite handleSubmit_rejected in E by exact G.
    injection E as <- <-. destruct Hin as [D | []]. discriminate.
Qed.

(** A submission that hands over no record leaves the form data as they
    are. *)
Lemma handleSubmit_cases (h : host) (formData : FormData.t) :
  (submitGuard formData = false
   /\ handleSubmit h formData = Normal (formData, [PreventDefault]))
  \/ (submitGuard formData = true
      /\ exists sale,
           handleSubmit h formData
           = Normal (initialFormData,
                     [PreventDefault; OnSaleCreated sale; OnOpenChange false])).
Proof.
  destruct (submitGuard formData) eqn:G.
  - right. split; [reflexivity|].
    apply submitGuard_true in G. destruct G as ([p Hp] & Hu & Hq).
    destruct (handleSubmit_accepted products sales purchases salesReturns
                h formData p Hp Hu Hq) as (price & total & _ & _ & E).
    eauto.
  - left. split; [reflexivity|]. now apply handleSubmit_rejected.
Qed.

Lemma submitGuard_initial : submitGuard initialFormData = false.
Proof.
  unfold_submitGuard.
  destruct (selectedProduct initialFormData); reflexivity.
Qed.

(** X5.  A record is never handed over for more than the stock: its
    product is a product of the list, whose name it carries, and its
    quantity is the quantity of the form and at most the calculated stock
    of that product; status, customer name and notes are those of the
    form. *)
Theorem handleSubmit_within_stock (h : host) (formData formData' : FormData.t)
    (calls : list call) (sale : SaleData.t) :
  handleSubmit h formData = Normal (formData', calls) ->
  In (OnSaleCreated sale) calls ->
  (exists product,
      In product products
      /\ Product.id product = SaleData.productId sale
      /\ Product.name product = SaleData.productName sale)
  /\ SaleData.productId sale = FormData.productId formData
  /\ SaleData.quantity sale = FormData.quantity formData
  /\ SaleData.quantity sale
     <= getCalculatedStock sales purchases salesReturns (SaleData.productId sale)
  /\ SaleData.status sale = FormData.status formData
  /\ SaleData.customerName sale = FormData.customerName formData
  /\ SaleData.notes sale = FormData.notes formData.
Proof.
  intros E Hin.
  destruct (handleSubmit_emits h _ _ _ _ E Hin)
    as (p & price & total & Hp & _ & Hq & _ & _ & -> & _ & _).
  destruct (selectedProduct_some formData p Hp) as [Hinp Hid].
  simpl. split; [exists p; auto|].
  split; [reflexivity|]. split; [reflexivity|]. split; [|repeat split].
  rewrite <- (availableStock_selected formData p Hp).
  unfold_isQuantityValid. apply Z.leb_le. exact Hq.
Qed.


(** X7.  When the identifier of the form is not empty and is the
    identifier of a product of the list, the submit button is enabled
    exactly when a submit hands over a record. *)
Theorem submitDisabled_agrees (h : host) (formData : FormData.t) :
  FormData.productId formData <> [] ->
  (exists q, In q products /\ Product.id q = FormData.productId formData) ->
  submitDisabled formData = negb (submitGuard formData)
  /\ (submitDisabled formData = false <->
      exists sale,
        handleSubmit h formData
        = Normal (initialFormData,
                  [PreventDefault; OnSaleCreated sale; OnOpenChange false])).
Proof.
  intros Hid Hex.
  destruct (find_product_present products _ Hex) as (p & F & _ & _).
  assert (Hagree : submitDisabled formData = negb (submitGuard formData)).
  { unfold_submitDisabled. unfold_submitGuard.
    change (find _ products) with (selectedProduct formData) in F.
    rewrite F.
    destruct (FormData.productId formData); [congruence|].
    cbn [truthy negb orb]. now rewrite negb_andb. }
  split; [exact Hagree|]. rewrite Hagree, negb_false_iff.
  destruct (handleSubmit_cases h formData) as [[G E] | [G [sale E]]];
    rewrite G; split; intros H; try reflexivity; try discriminate.
  - destruct H as [sale E']. rewrite E in E'. discriminate.
  - eauto.
Qed.

(** X8.  A submit that follows a submit directly hands over nothing and
    changes nothing: after a record was handed over the form is back at
    its defaults, which do not pass the guard, and after a refused submit
    the form is as before. *)
Theorem handleSubmit_twice (h h' : host) (formData formData' : FormData.t)
    (calls : list call) :
  handleSubmit h formData = Normal (formData', calls) ->
  handleSubmit h' formData' = Normal (formData', [PreventDefault]).
Proof.
  intros E.
  destruct (handleSubmit_cases h formData) as [[G E'] | [_ [sale E']]];
    rewrite E' in E; injection E as <- _.
  - now apply handleSubmit_rejected.
  - apply handleSubmit_rejected. apply submitGuard_initial.
Qed.

(** X9.  Selecting an identifier that no product of the list has stores
    the identifier with the quantity 1 and an empty unit price; then no
    product is selected, the available stock is 0, the submit button is
    disabled and a submit hands over nothing. *)
Theorem handleProductChange_unknown (h : host) (productId : jsstring)
    (formData : FormData.t) :
  (forall q, In q products -> Product.id q <> productId) ->
  let formData' := handleProductChange productId formData in
  FormData.productId formData' = productId
  /\ FormData.quantity formData' = 1
  /\ FormData.unitPrice formData' = []
  /\ selectedProduct formData' = None
  /\ availableStock formData' = 0
  /\ submitDisabled formData' = true
  /\ handleSubmit h formData' = Normal (formData', [PreventDefault]).
Proof.
  intros Hno formData'.
  assert (F : find (fun p => str_eqb (Product.id p) productId) products = None).
  { destruct (find (fun p => str_eqb (Product.id p) productId) products)
      as [p|] eqn:F; [|reflexivity].
    apply find_some in F. destruct F as [Hin Hb]. exfalso.
    apply (Hno p Hin). now destruct (str_eqb_spec (Product.id p) productId). }
  assert (Hu : FormData.unitPrice formData' = []).
  { subst formData'. unfold_handleProductChange. simpl. now rewrite F. }
  assert (Hsel : selectedProduct formData' = None) by exact F.
  split; [reflexivity|]. split; [reflexivity|]. split; [exact Hu|].
  split; [exact Hsel|]. split; [|split].
  - unfold_availableStock. now rewrite Hsel.
  - unfold_submitDisabled. rewrite Hu. simpl.
    rewrite orb_true_r. reflexivity.
  - apply handleSubmit_rejected. unfold_submitGuard. now rewrite Hsel.
Qed.

(** X10.  Selecting a product that is in stock and whose sell price is
    more than currency signs makes the form ready: a submit right after
    hands over one unit of that product at the prefilled price, with the
    customer name, the status and the notes entered before. *)
Theorem select_then_submit (h : host) (productId : jsstring)
    (formData : FormData.t) (p : Product.t) :
  find (fun p => str_eqb (Product.id p) productId) products = Some p ->
  1 <= getCalculatedStock sales purchases salesReturns productId ->
  stripCurrency (Product.sellPrice p) <> [] ->
  exists sale,
    handleSubmit h (handleProductChange productId formData)
    = Normal (initialFormData,
              [PreventDefault; OnSaleCreated sale; OnOpenChange false])
    /\ SaleData.productId sale = productId
    /\ SaleData.productName sale = Product.name p
    /\ SaleData.quantity sale = 1
    /\ toFixed (parseFloat (stripCurrency (Product.sellPrice p))) 2
       = Normal (SaleData.unitPrice sale)
    /\ SaleData.customerName sale = FormData.customerName formData
    /\ SaleData.status sale = FormData.status formData
    /\ SaleData.notes sale = FormData.notes formData.
Proof.
  intros F Hstock Hprice.
  set (formData' := handleProductChange productId formData).
  assert (Hu : FormData.unitPrice formData' = stripCurrency (Product.sellPrice p)).
  { subst formData'. unfold_handleProductChange. simpl. now rewrite F. }
  assert (Hsel : selectedProduct formData' = Some p) by exact F.
  assert (Ht : truthy (FormData.unitPrice formData') = true).
  { rewrite Hu. destruct (stripCurrency (Product.sellPrice p));
      [congruence | reflexivity]. }
  assert (Hq : isQuantityValid formData' = true).
  { unfold_isQuantityValid.
    rewrite (availableStock_selected formData' p Hsel).
    apply Z.leb_le. simpl. lia. }
  destruct (handleSubmit_accepted products sales purchases salesReturns
              h formData' p Hsel Ht Hq) as (price & total & Hp & _ & E).
  exists (saleOf h p price total formData').
  split; [exact E|]. rewrite Hu in Hp. repeat split. exact Hp.
Qed.

(** X11.  The guard looks at the unit price only to see that it is not
    empty: when the string has no numeric prefix, so that [parseFloat]
    gives NaN, a submit goes through all the same and the record carries
    "NaN" as unit price and as total amount. *)
Theorem handleSubmit_NaN_price (h : host) (formData : FormData.t)
    (p : Product.t) :
  selectedProduct formData = Some p ->
  FormData.unitPrice formData <> [] ->
  isQuantityValid formData = true ->
  parseFloat (FormData.unitPrice formData) = S754_nan ->
  exists sale,
    handleSubmit h formData
    = Normal (initialFormData,
              [PreventDefault; OnSaleCreated sale; OnOpenChange false])
    /\ SaleData.unitPrice sale = lit "NaN"
    /\ SaleData.totalAmount sale = lit "NaN".
Proof.
  intros Hp Hu Hq Hnan.
  assert (Ht : truthy (FormData.unitPrice formData) = true)
    by (destruct (FormData.unitPrice formData); [congruence | reflexivity]).
  destruct (handleSubmit_accepted products sales purchases salesReturns
              h formData p Hp Ht Hq) as (price & total & Hprice & Htotal & E).
  exists (saleOf h p price total formData). split; [exact E|].
  rewrite Hnan in Hprice, Htotal. simpl.
  injection Hprice as <-.
  assert (Hmul : mul S754_nan (Number_of_Z (FormData.quantity formData)) = S754_nan)
    by (unfold mul; destruct (Number_of_Z (FormData.quantity formData)); reflexivity).
  rewrite Hmul in Htotal. injection Htotal as <-.
  split; reflexivity.
Qed.

(** X12.  With a stock of at least 1, a change of the quantity stores a
    quantity from 1 to the stock, unless the text parses to a negative
    number. *)
Theorem handleQuantityChange_in_stock (q : jsstring) (formData : FormData.t) :
  1 <= availableStock formData ->
  let formData' := handleQuantityChange q formData in
  1 <= FormData.quantity formData' <= availableStock formData
  <-> (forall n, parseInt q = Some n -> 0 <= n).
Proof.
  intros Hstock formData'.
  assert (Hq : FormData.quantity formData'
               = Z.min (orOne (parseInt q)) (availableStock formData))
    by reflexivity.
  rewrite Hq. unfold orOne. destruct (parseInt q) as [n|].
  - destruct (Z.eqb_spec n 0) as [->|Hn]; split.
    + intros _ m [= <-]. lia.
    + lia.
    + intros H m [= <-]. lia.
    + intros H. specialize (H n eq_refl). lia.
  - split; [intros _ n; discriminate | lia].
Qed.


End Submitting.

(* ===================================================================== *)
(** * What is rendered against what is done                               *)
(* ===================================================================== *)

(** With distinct identifiers, [find] returns the product asked for. *)
Lemma find_product_unique (products : list Product.t) (p : Product.t) :
  NoDup (map Product.id products) -> In p products ->
  find (fun q => str_eqb (Product.id q) (Product.id p)) products = Some p.
Proof.
  induction products as [|q products IH]; intros Hnd Hin; [destruct Hin|].
  simpl. inversion Hnd as [|? ? Hq Hnd']; subst.
  destruct Hin as [->|Hin].
  - now rewrite str_eqb_refl.
  - destruct (str_eqb_spec (Product.id q) (Product.id p)) as [E|_].
    + exfalso. apply Hq. rewrite E. apply in_map. exact Hin.
    + apply IH; assumption.
Qed.

Section Rendered.

Variable products : list Product.t.
Variable sales : list Sale.t.
Variable purchases : list Purchase.t.
Variable salesReturns : list SalesReturn.t.

Local Abbreviation availableStock :=
  (availableStock products sales purchases salesReturns).
Local Abbreviation isQuantityValid :=
  (isQuantityValid products sales purchases salesReturns).
Local Abbreviation handleSubmit :=
  (handleSubmit products sales purchases salesReturns).
Local Abbreviation submitDisabled :=
  (submitDisabled products sales purchases salesReturns).
Local Abbreviation selectedProduct := (selectedProduct products).
Local Abbreviation handleProductChange := (handleProductChange products).
Local Abbreviation quantityError :=
  (quantityError products sales purchases salesReturns).
Local Abbreviation availableStockLine :=
  (availableStockLine products sales purchases salesReturns).
Local Abbreviation productOptions :=
  (productOptions products sales purchases salesReturns).

(** X14.  The sale summary shows what a submit hands over: whenever a
    record is handed over, the summary was rendered, and its unit price,
    quantity and total amount are those of the record. *)
Theorem saleSummary_shows_record (h : host) (formData formData' : FormData.t)
    (calls : list call) (sale : SaleData.t) :
  handleSubmit h formData = Normal (formData', calls) ->
  In (OnSaleCreated sale) calls ->
  saleSummary formData
  = Some (Normal {| summaryUnitPrice := SaleData.unitPrice sale;
                    summaryQuantity := SaleData.quantity sale;
                    summaryTotalAmount := SaleData.totalAmount sale |}).
Proof.
  intros E Hin.
  destruct (handleSubmit_emits products sales purchases salesReturns
              h _ _ _ _ E Hin)
    as (p & price & total & _ & Hu & _ & Hprice & Htotal & -> & _ & _).
  unfold_saleSummary. rewrite Hu.
  unfold totalAmount, unitPrice. rewrite Hu, Hprice, Htotal. reflexivity.
Qed.

(** X15.  The stock that an item of the product select shows is the stock
    that the quantity is checked against once the item is chosen, and the
    stock line then shows the same number; when the products have distinct
    identifiers, the product selected is the one of the item, and the unit
    price is prefilled from the price that the item shows. *)
Theorem productOptions_stock (option : productOption) (formData : FormData.t) :
  In option productOptions ->
  let formData' := handleProductChange (optionValue option) formData in
  availableStock formData' = optionStock option
  /\ availableStockLine formData' = Some (optionStock option)
  /\ (NoDup (map Product.id products) ->
      exists product,
        selectedProduct formData' = Some product
        /\ Product.name product = optionName option
        /\ FormData.unitPrice formData' = stripCurrency (optionPrice option)).
Proof.
  intros Hin formData'. unfold_productOptions.
  apply in_map_iff in Hin. destruct Hin as (product & <- & Hin).
  cbn [optionValue optionStock optionName optionPrice] in *.
  destruct (find_product_present products (Product.id product))
    as (p & F & _ & Hid); [exists product; auto|].
  assert (Hsel : selectedProduct formData' = Some p) by exact F.
  assert (Hstock : availableStock formData'
                   = getCalculatedStock sales purchases salesReturns
                       (Product.id product)).
  { unfold_availableStock. now rewrite Hsel, Hid. }
  split; [exact Hstock|]. split.
  - unfold_availableStockLine. now rewrite Hsel, Hstock.
  - intros Hnd. pose proof (find_product_unique products product Hnd Hin) as F'.
    rewrite F' in F. injection F as <-.
    exists product. split; [exact Hsel|]. split; [reflexivity|].
    subst formData'. unfold_handleProductChange. simpl. now rewrite F'.
Qed.

(** X16.  Whenever the message that the quantity exceeds the stock is
    rendered, it mentions the available stock, the quantity is above it,
    the submit button is disabled and a submit hands over nothing. *)
Theorem quantityError_blocks (h : host) (formData : FormData.t) (shown : Z) :
  quantityError formData = Some shown ->
  shown = availableStock formData
  /\ availableStock formData < FormData.quantity formData
  /\ submitDisabled formData = true
  /\ handleSubmit h formData = Normal (formData, [PreventDefault]).
Proof.
  unfold_quantityError.
  destruct (isQuantityValid formData) eqn:Hq; [discriminate|].
  cbn [negb]. intros [= <-].
  assert (Hlt : availableStock formData < FormData.quantity formData).
  { apply Z.leb_gt. exact Hq. }
  destruct (submit_blocked_over_stock products sales purchases salesReturns
              h formData Hlt) as (_ & Hd & Hs).
  auto.
Qed.

End Rendered.

(* ===================================================================== *)
(** * Invariants of a session                                             *)
(* ===================================================================== *)

Section Reachable.

Variable products : list Product.t.
Variable sales : list Sale.t.
Variable purchases : list Purchase.t.
Variable salesReturns : list SalesReturn.t.
Variable h : host.

Local Abbreviation availableStock :=
  (availableStock products sales purchases salesReturns).
Local Abbreviation isQuantityValid :=
  (isQuantityValid products sales purchases salesReturns).
Local Abbreviation step := (step products sales purchases salesReturns h).
Local Abbreviation run := (run products sales purchases salesReturns h).
Local Abbreviation quantityError :=
  (quantityError products sales purchases salesReturns).

(** The quantity is valid, or it is the 1 that a selection and a reset
    put there. *)
Definition validOrOne (formData : FormData.t) : Prop :=
  isQuantityValid formData = true \/ FormData.quantity formData = 1.

Lemma isQuantityValid_same (f g : FormData.t) :
  FormData.productId f = FormData.productId g ->
  FormData.quantity f = FormData.quantity g ->
  isQuantityValid f = isQuantityValid g.
Proof.
  intros Hp Hq. unfold_isQuantityValid.
  rewrite Hq, (availableStock_productId products sales purchases salesReturns
                 f g Hp).
  reflexivity.
Qed.

Lemma validOrOne_same (f g : FormData.t) :
  FormData.productId f = FormData.productId g ->
  FormData.quantity f = FormData.quantity g ->
  validOrOne f -> validOrOne g.
Proof.
  intros Hp Hq [H|H]; [left | right].
  - now rewrite <- (isQuantityValid_same f g Hp Hq).
  - now rewrite <- Hq.
Qed.

(** Every event returns, and keeps the quantity valid or 1. *)
Lemma step_validOrOne (ev : event) (formData : FormData.t) :
  validOrOne formData ->
  exists formData' calls,
    step ev formData = Normal (formData', calls) /\ validOrOne formData'.
Proof.
  intros Hinv. destruct ev; simpl;
    try (eexists; eexists; split; [reflexivity|]).
  - right. reflexivity.
  - left. apply isQuantityValid_handleQuantityChange.
  - apply (validOrOne_same formData); [reflexivity | reflexivity | exact Hinv].
  - apply (validOrOne_same formData); [reflexivity | reflexivity | exact Hinv].
  - apply (validOrOne_same formData); [reflexivity | reflexivity | exact Hinv].
  - apply (validOrOne_same formData); [reflexivity | reflexivity | exact Hinv].
  - destruct (handleSubmit_cases products sales purchases salesReturns
                h formData) as [[_ E] | [_ [sale E]]]; rewrite E.
    + eexists; eexists; split; [reflexivity | exact Hinv].
    + eexists; eexists; split; [reflexivity | right; reflexivity].
  - exact Hinv.
  - exact Hinv.
  - exact Hinv.
Qed.

Lemma run_validOrOne (evs : list event) (formData : FormData.t) :
  validOrOne formData ->
  exists formData' calls,
    run evs formData = Normal (formData', calls) /\ validOrOne formData'.
Proof.
  revert formData. induction evs as [|ev evs IH]; intros formData Hinv; simpl.
  - eexists; eexists; split; [reflexivity | exact Hinv].
  - destruct (step_validOrOne ev formData Hinv) as (f1 & c1 & E1 & H1).
    rewrite E1. simpl.
    destruct (IH f1 H1) as (f2 & c2 & E2 & H2).
    rewrite E2. simpl.
    eexists; eexists; split; [reflexivity | exact H2].
Qed.

(** X17.  Whatever the user and the parent do from the first render on,
    with the collections as they are, no handler throws, and in the state
    reached the quantity is at most the available stock or is 1: the
    message that the quantity exceeds the stock can be rendered only
    while the quantity is the 1 that a selection or a reset put there. *)
Theorem run_quantity_valid_or_one (evs : list event) :
  exists formData' calls,
    run evs initialFormData = Normal (formData', calls)
    /\ (FormData.quantity formData' <= availableStock formData'
        \/ FormData.quantity formData' = 1)
    /\ (quantityError formData' = None \/ FormData.quantity formData' = 1).
Proof.
  destruct (run_validOrOne evs initialFormData) as (f & c & E & Hinv);
    [right; reflexivity|].
  exists f, c. split; [exact E|].
  destruct Hinv as [Hv|H1].
  - split; left.
    + apply Z.leb_le. exact Hv.
    + unfold_quantityError. now rewrite Hv.
  - split; right; exact H1.
Qed.

(** The calls of an event that is not a submit hand over no record. *)
Lemma step_no_sale (ev : event) (formData formData' : FormData.t)
    (calls : list call) (sale : SaleData.t) :
  ev <> Submit ->
  step ev formData = Normal (formData', calls) ->
  ~ In (OnSaleCreated sale) calls.
Proof.
  intros Hev E Hin. destruct ev; try congruence; simpl in E;
    injection E as <- <-; simpl in Hin;
    repeat (destruct Hin as [Hin|Hin]; try discriminate); exact Hin.
Qed.

(** X18.  In a session that starts from any state, every record handed
    over is for a product of the list and for at most the calculated stock
    of that product. *)
Theorem run_within_stock (evs : list event) (formData formData' : FormData.t)
    (calls : list call) (sale : SaleData.t) :
  run evs formData = Normal (formData', calls) ->
  In (OnSaleCreated sale) calls ->
  (exists product,
      In product products /\ Product.id product = SaleData.productId sale)
  /\ SaleData.quantity sale
     <= getCalculatedStock sales purchases salesReturns (SaleData.productId sale).
Proof.
  revert formData formData' calls.
  induction evs as [|ev evs IH]; intros formData formData' calls E Hin; simpl in E.
  - injection E as <- <-. destruct Hin.
  - destruct (step ev formData) as [[f1 c1]|] eqn:E1; simpl in E; [|discriminate].
    destruct (run evs f1) as [[f2 c2]|] eqn:E2; simpl in E; [|discriminate].
    injection E as <- <-. apply in_app_or in Hin. destruct Hin as [Hin|Hin].
    + destruct ev;
        try (exfalso; eapply step_no_sale; [|exact E1|exact Hin]; discriminate).
      simpl in E1.
      destruct (handleSubmit_emits products sales purchases salesReturns
                  h _ _ _ _ E1 Hin)
        as (p & price & total & Hp & _ & Hq & _ & _ & -> & _ & _).
      destruct (selectedProduct_some products formData p Hp) as [Hinp Hid].
      simpl. split; [exists p; auto|].
      rewrite <- (availableStock_selected products sales purchases salesReturns
                    formData p Hp).
      apply Z.leb_le. exact Hq.
    + exact (IH f1 _ _ E2 Hin).
Qed.

End Reachable.

(* ===================================================================== *)
(** * The text of the quantity field                                      *)
(* ===================================================================== *)












(* ===================================================================== *)
(** * The date of a sale, read back                                       *)
(* ===================================================================== *)

Lemma app_eq_same_length {A : Type} (a a' b b' : list A) :
  length a = length a' -> a ++ b = a' ++ b' -> a = a' /\ b = b'.
Proof.
  revert a'. induction a as [|x a IH]; intros [|x' a'] Hlen E;
    simpl in *; try discriminate.
  - auto.
  - injection E as -> E. destruct (IH a' ltac:(lia) E) as [-> ->]. auto.
Qed.

Lemma digitChars_inj (ds ds' : list Z) :
  Forall (fun d => 0 <= d <= 9) ds -> Forall (fun d => 0 <= d <= 9) ds' ->
  digitChars ds = digitChars ds' -> ds = ds'.
Proof.
  intros H. revert ds'. induction H as [|d ds Hd _ IH];
    intros ds' H' E; destruct H' as [|d' ds' Hd' H']; simpl in E;
    try discriminate; [reflexivity|].
  injection E as E0 E. f_equal; [|now apply IH].
  unfold digitChar in E0. apply Z2N.inj in E0; lia.
Qed.

(** Numbers that fit in [w] digits and are written alike are equal. *)
Lemma padDigits_inj (w : nat) (a b : Z) :
  0 <= a < 10 ^ Z.of_nat w -> 0 <= b < 10 ^ Z.of_nat w ->
  digitChars (padDigits w a) = digitChars (padDigits w b) -> a = b.
Proof.
  intros Ha Hb E.
  apply digitChars_inj in E; try apply padDigits_digits.
  rewrite <- (padDigits_value w a Ha), <- (padDigits_value w b Hb).
  now rewrite E.
Qed.

Lemma isoDate_four_digits (y m d : Z) :
  0 <= y <= 9999 ->
  isoDate y m d
  = digitChars (padDigits 4 y) ++ lit "-" ++
    digitChars (padDigits 2 m) ++ lit "-" ++ digitChars (padDigits 2 d).
Proof.
  intros Hy. unfold isoDate, isoYear.
  replace ((0 <=? y) && (y <=? 9999)) with true; [reflexivity|].
  symmetry. apply andb_true_iff. split; apply Z.leb_le; lia.
Qed.

(** The date part of the ISO format tells years, months and days apart. *)
Lemma isoDate_inj (y m d y' m' d' : Z) :
  0 <= y <= 9999 -> 0 <= m < 100 -> 0 <= d < 100 ->
  0 <= y' <= 9999 -> 0 <= m' < 100 -> 0 <= d' < 100 ->
  isoDate y m d = isoDate y' m' d' -> y = y' /\ m = m' /\ d = d'.
Proof.
  intros Hy Hm Hd Hy' Hm' Hd' E.
  rewrite !isoDate_four_digits in E by assumption.
  apply app_eq_same_length in E;
    [|unfold digitChars; now rewrite !length_map, !padDigits_length].
  destruct E as [Ey E]. apply (app_inv_head (lit "-")) in E.
  apply app_eq_same_length in E;
    [|unfold digitChars; now rewrite !length_map, !padDigits_length].
  destruct E as [Em Ed]. apply (app_inv_head (lit "-")) in Ed.
  apply padDigits_inj in Ey; [|simpl; lia|simpl; lia].
  apply padDigits_inj in Em; [|simpl; lia|simpl; lia].
  apply padDigits_inj in Ed; [|simpl; lia|simpl; lia].
  auto.
Qed.

(** Year, month and day of the month are read from the day alone. *)
Lemma date_of_Day (t t' : Z) :
  Day t = Day t' ->
  YearFromTime t = YearFromTime t'
  /\ MonthFromTime t = MonthFromTime t'
  /\ DateFromTime t = DateFromTime t'.
Proof.
  intros E.
  assert (Hy : YearFromTime t = YearFromTime t')
    by (unfold YearFromTime; now rewrite E).
  assert (Hw : DayWithinYear t = DayWithinYear t')
    by (unfold DayWithinYear; now rewrite E, Hy).
  assert (Hl : InLeapYear t = InLeapYear t')
    by (unfold InLeapYear; now rewrite Hy).
  assert (Hm : MonthFromTime t = MonthFromTime t')
    by (unfold MonthFromTime; now rewrite Hw, Hl).
  repeat split; try assumption.
  unfold DateFromTime. now rewrite Hw, Hl, Hm.
Qed.

Lemma daysInMonth_le (y m : Z) : daysInMonth y m <= 31.
Proof.
  unfold daysInMonth.
  destruct m as [|p|p]; try lia.
  repeat (destruct p as [p|p|]; try lia); destruct (isLeapYear y); lia.
Qed.

Section SaleDates.

Variable products : list Product.t.
Variable sales : list Sale.t.
Variable purchases : list Purchase.t.
Variable salesReturns : list SalesReturn.t.

Local Abbreviation handleSubmit :=
  (handleSubmit products sales purchases salesReturns).

(** X20.  The date of a record tells the day of the submission in
    universal time, and nothing more: two records handed over in the
    years 0000 to 9999 carry the same date exactly when they were
    submitted on the same day of universal time, whatever the local time
    zones were. *)
Theorem sale_dates_same_day (t1 tz1 t2 tz2 : Z)
    (formData1 formData1' formData2 formData2' : FormData.t)
    (calls1 calls2 : list call) (sale1 sale2 : SaleData.t) :
  handleSubmit {| now := t1; timezoneOffset := tz1 |} formData1
    = Normal (formData1', calls1) ->
  In (OnSaleCreated sale1) calls1 ->
  handleSubmit {| now := t2; timezoneOffset := tz2 |} formData2
    = Normal (formData2', calls2) ->
  In (OnSaleCreated sale2) calls2 ->
  TimeFromYear 0 <= t1 < TimeFromYear 10000 ->
  TimeFromYear 0 <= t2 < TimeFromYear 10000 ->
  SaleData.date sale1 = SaleData.date sale2 <-> Day t1 = Day t2.
Proof.
  intros E1 Hin1 E2 Hin2 Ht1 Ht2.
  rewrite (handleSubmit_date _ _ _ _ _ _ _ _ _ E1 Hin1),
    (handleSubmit_date _ _ _ _ _ _ _ _ _ E2 Hin2). simpl.
  split.
  - intros E.
    pose proof (YearFromTime_range t1 0 10000 Ht1) as Hy1.
    pose proof (YearFromTime_range t2 0 10000 Ht2) as Hy2.
    destruct (civil_date_of_time t1) as (Hm1 & Hd1 & Hn1).
    destruct (civil_date_of_time t2) as (Hm2 & Hd2 & Hn2).
    pose proof (daysInMonth_le (YearFromTime t1) (MonthFromTime t1 + 1)).
    pose proof (daysInMonth_le (YearFromTime t2) (MonthFromTime t2 + 1)).
    apply isoDate_inj in E; try lia.
    destruct E as (Ey & Em & Ed).
    rewrite <- Hn1, <- Hn2, Ey, Em, Ed. reflexivity.
  - intros E. destruct (date_of_Day t1 t2 E) as (-> & -> & ->). reflexivity.
Qed.

End SaleDates.

(* ===================================================================== *)
(** * The amounts of a sale, digit by digit                               *)
(* ===================================================================== *)

(** A Number that [toFixed] writes in plain decimal form: finite and of a
    magnitude below 10^21. *)
Definition isPlainAmount (x : number) : bool :=
  match x with
  | S754_nan | S754_infinity _ => false
  | _ => let '(num, den) := magnitude x in num <? 10 ^ 21 * Zpos den
  end.

(** The magnitude of [x] in hundredths, rounded to the nearest integer,
    halves upwards. *)
Definition hundredths (x : number) : Z :=
  let '(num, den) := magnitude x in
  (2 * num * 100 + Zpos den) / (2 * Zpos den).

Lemma digitsValue_from (ds : list Z) (a : Z) :
  fold_left (fun acc d => acc * 10 + d) ds a
  = a * 10 ^ Z.of_nat (length ds) + digitsValue 10 ds.
Proof.
  unfold digitsValue. revert a. induction ds as [|d ds IH]; intros a.
  - simpl. lia.
  - cbn [fold_left length]. rewrite IH, (IH (0 * 10 + d)).
    rewrite Nat2Z.inj_succ, Z.pow_succ_r by lia. lia.
Qed.

Lemma digitsValue_cons (d : Z) (ds : list Z) :
  digitsValue 10 (d :: ds) = d * 10 ^ Z.of_nat (length ds) + digitsValue 10 ds.
Proof.
  unfold digitsValue at 1. cbn [fold_left]. rewrite digitsValue_from. lia.
Qed.

Lemma digitsValue_zeros (j : nat) (ds : list Z) :
  digitsValue 10 (repeat 0 j ++ ds) = digitsValue 10 ds.
Proof.
  induction j as [|j IH]; [reflexivity|].
  cbn [repeat app]. rewrite digitsValue_cons, IH. lia.
Qed.

(** The digits of a number denote it, as long as the fuel lasts. *)
Lemma decimalDigitsAux_value (fuel : nat) (n : Z) (acc : list Z) :
  0 <= n < 2 ^ Z.of_nat fuel ->
  digitsValue 10 (decimalDigitsAux fuel n acc)
  = n * 10 ^ Z.of_nat (length acc) + digitsValue 10 acc.
Proof.
  revert n acc. induction fuel as [|fuel IH]; intros n acc Hn.
  - simpl in Hn. assert (n = 0) by lia. subst n. simpl. lia.
  - cbn [decimalDigitsAux]. destruct (Z.ltb_spec n 10) as [Hlt|Hge].
    + apply digitsValue_cons.
    + rewrite IH.
      * rewrite digitsValue_cons. cbn [length].
        rewrite Nat2Z.inj_succ, Z.pow_succ_r by lia.
        pose proof (Z.div_mod n 10 ltac:(lia)). nia.
      * rewrite Nat2Z.inj_succ, Z.pow_succ_r in Hn by lia.
        split; [apply Z.div_pos; lia|].
        apply Z.div_lt_upper_bound; lia.
Qed.

Lemma decimalDigits_value (n : Z) :
  0 <= n -> digitsValue 10 (decimalDigits n) = n.
Proof.
  intros Hn. unfold decimalDigits. rewrite decimalDigitsAux_value.
  - simpl. unfold digitsValue. simpl. lia.
  - split; [exact Hn|].
    rewrite Nat2Z.inj_succ, Z2Nat.id by apply Z.log2_nonneg.
    destruct (Z.eq_dec n 0) as [->|Hnz]; [reflexivity|].
    apply Z.log2_spec. lia.
Qed.

Lemma decimalDigitsAux_digits (fuel : nat) (n : Z) (acc : list Z) :
  0 <= n -> Forall (fun d => 0 <= d <= 9) acc ->
  Forall (fun d => 0 <= d <= 9) (decimalDigitsAux fuel n acc).
Proof.
  revert n acc. induction fuel as [|fuel IH]; intros n acc Hn Hacc;
    [exact Hacc|].
  cbn [decimalDigitsAux]. destruct (Z.ltb_spec n 10) as [Hlt|Hge].
  - constructor; [lia | exact Hacc].
  - apply IH.
    + apply Z.div_pos; lia.
    + constructor; [|exact Hacc].
      pose proof (Z.mod_pos_bound n 10 ltac:(lia)). lia.
Qed.

Lemma decimalDigits_digits (n : Z) :
  0 <= n -> Forall (fun d => 0 <= d <= 9) (decimalDigits n).
Proof. intros Hn. apply decimalDigitsAux_digits; [exact Hn | constructor]. Qed.

Lemma magnitude_nonneg (x : number) : 0 <= fst (magnitude x).
Proof.
  destruct x as [s|s| |s m e]; cbn [magnitude fst]; try lia.
  destruct (0 <=? e); cbn [fst]; [|lia].
  pose proof (Z.pow_nonneg 2 e ltac:(lia)). nia.
Qed.

(** What [toFixed(2)] writes for a plain amount: a minus sign when the
    Number is negative, the digits of its hundredths, and a point before
    the last two of them. *)
Lemma toFixed_2_plain (x : number) :
  isPlainAmount x = true ->
  exists ip fp,
    toFixed x 2
    = Normal ((if isNegative x then lit "-" else []) ++
              digitChars ip ++ lit "." ++ digitChars fp)
    /\ ip <> [] /\ length fp = 2%nat
    /\ Forall (fun d => 0 <= d <= 9) (ip ++ fp)
    /\ digitsValue 10 (ip ++ fp) = hundredths x.
Proof.
  intros Hplain.
  pose proof (magnitude_nonneg x) as Hnum.
  unfold hundredths.
  assert (E : toFixed x 2
    = Normal (let '(num, den) := magnitude x in
              let n := (2 * num * 100 + Zpos den) / (2 * Zpos den) in
              let ds := repeat 0 (2 + 1 - length (decimalDigits n))
                          ++ decimalDigits n in
              (if isNegative x then lit "-" else []) ++
              digitChars (firstn (length ds - 2) ds) ++
              lit "." ++ digitChars (skipn (length ds - 2) ds))).
  { unfold toFixed, isPlainAmount in *.
    destruct (Nat.ltb_spec 100 2) as [Hbad|_]; [lia|].
    destruct x as [s|s| |s m e]; try discriminate;
      destruct (magnitude _) as [num den];
      apply Z.ltb_lt in Hplain;
      (destruct (Z.leb_spec (10 ^ 21 * Z.pos den) num) as [Hbig|_]; [lia|]);
      reflexivity. }
  rewrite E. clear E Hplain.
  destruct (magnitude x) as [num den]. simpl in Hnum.
  set (n := (2 * num * 100 + Z.pos den) / (2 * Z.pos den)).
  assert (Hn : 0 <= n) by (apply Z.div_pos; lia).
  cbv zeta.
  set (ds := repeat 0 (2 + 1 - length (decimalDigits n)) ++ decimalDigits n).
  assert (Hlen : (3 <= length ds)%nat).
  { subst ds. rewrite length_app, repeat_length. lia. }
  exists (firstn (length ds - 2) ds), (skipn (length ds - 2) ds).
  split; [reflexivity|]. split; [|split; [|split]].
  - intros Hnil. apply (f_equal (@length Z)) in Hnil.
    rewrite length_firstn in Hnil. simpl in Hnil. lia.
  - rewrite length_skipn. lia.
  - rewrite firstn_skipn. subst ds. apply Forall_app. split.
    + apply Forall_forall. intros d Hd. apply repeat_spec in Hd. lia.
    + apply decimalDigits_digits. exact Hn.
  - rewrite firstn_skipn. subst ds.
    rewrite digitsValue_zeros. apply decimalDigits_value. exact Hn.
Qed.

Section Amounts.

Variable products : list Product.t.
Variable sales : list Sale.t.
Variable purchases : list Purchase.t.
Variable salesReturns : list SalesReturn.t.

Local Abbreviation handleSubmit :=
  (handleSubmit products sales purchases salesReturns).

(** X21.  When the unit price of the form parses to a finite Number of a
    magnitude below 10^21, the unit price of the record handed over is
    written with an optional minus sign, at least one digit, a point and
    exactly two digits, and these digits are the price in hundredths,
    rounded to the nearest with halves upwards; the same holds for the
    total amount when the product of price and quantity is such a
    Number. *)
Theorem handleSubmit_two_decimals (h : host) (formData formData' : FormData.t)
    (calls : list call) (sale : SaleData.t) :
  handleSubmit h formData = Normal (formData', calls) ->
  In (OnSaleCreated sale) calls ->
  let price := parseFloat (FormData.unitPrice formData) in
  let total := mul price (Number_of_Z (FormData.quantity formData)) in
  (isPlainAmount price = true ->
   exists ip fp,
     SaleData.unitPrice sale
     = (if isNegative price then lit "-" else []) ++
       digitChars ip ++ lit "." ++ digitChars fp
     /\ ip <> [] /\ length fp = 2%nat
     /\ Forall (fun d => 0 <= d <= 9) (ip ++ fp)
     /\ digitsValue 10 (ip ++ fp) = hundredths price)
  /\ (isPlainAmount total = true ->
      exists ip fp,
        SaleData.totalAmount sale
        = (if isNegative total then lit "-" else []) ++
          digitChars ip ++ lit "." ++ digitChars fp
        /\ ip <> [] /\ length fp = 2%nat
        /\ Forall (fun d => 0 <= d <= 9) (ip ++ fp)
        /\ digitsValue 10 (ip ++ fp) = hundredths total).
Proof.
  intros E Hin price total.
  destruct (handleSubmit_emits products sales purchases salesReturns
              h _ _ _ _ E Hin)
    as (p & sprice & stotal & _ & _ & _ & Hprice & Htotal & -> & _ & _).
  fold price in Hprice, Htotal. fold total in Htotal.
  cbn [saleOf SaleData.unitPrice SaleData.totalAmount].
  split; intros Hplain.
  - destruct (toFixed_2_plain price Hplain) as (ip & fp & Ef & H).
    rewrite Ef in Hprice. injection Hprice as <-. exists ip, fp. auto.
  - destruct (toFixed_2_plain total Hplain) as (ip & fp & Ef & H).
    rewrite Ef in Htotal. injection Htotal as <-. exists ip, fp. auto.
Qed.

End Amounts.

(* ===================================================================== *)
(** * The further theorems at the example collections                     *)
(* ===================================================================== *)

Definition productA : Product.t :=
  {| Product.id := lit "A"; Product.name := lit "Product A";
     Product.sellPrice := lit "$19.999" |}.

(** The record that a submit of three of product A hands over. *)
Definition saleA3 : SaleData.t :=
  saleOf exampleHost productA (lit "20.00") (lit "60.00") formA3.

Example submit_formA3 :
  handleSubmit exampleProducts exampleSales examplePurchases exampleReturns
    exampleHost formA3
  = Normal (initialFormData,
            [PreventDefault; OnSaleCreated saleA3; OnOpenChange false]).
Proof. vm_compute. reflexivity. Qed.


Lemma getCalculatedStock_absent_witness :
  (forall sale, In sale exampleSales -> Sale.productId sale <> lit "C")
  /\ getCalculatedStock exampleSales examplePurchases exampleReturns (lit "C") = 0.
Proof.
  assert (Hs : forall sale, In sale exampleSales -> Sale.productId sale <> lit "C").
  { intros sale Hin. simpl in Hin.
    repeat (destruct Hin as [<-|Hin]; [vm_compute; discriminate|]).
    destruct Hin. }
  split; [exact Hs|].
  apply getCalculatedStock_absent; [exact Hs| |].
  - intros purchase Hin. simpl in Hin.
    repeat (destruct Hin as [<-|Hin]; [vm_compute; discriminate|]).
    destruct Hin.
  - intros returnItem Hin. simpl in Hin.
    repeat (destruct Hin as [<-|Hin]; [vm_compute; discriminate|]).
    destruct Hin.
Defined.

Lemma handleSubmit_within_stock_witness :
  In (OnSaleCreated saleA3)
    [PreventDefault; OnSaleCreated saleA3; OnOpenChange false]
  /\ SaleData.quantity saleA3 = 3
  /\ SaleData.quantity saleA3
     <= getCalculatedStock exampleSales examplePurchases exampleReturns
          (SaleData.productId saleA3).
Proof.
  assert (Hin : In (OnSaleCreated saleA3)
                  [PreventDefault; OnSaleCreated saleA3; OnOpenChange false])
    by (right; left; reflexivity).
  split; [exact Hin|]. split; [reflexivity|].
  apply (handleSubmit_within_stock exampleProducts exampleSales
           examplePurchases exampleReturns exampleHost formA3 _ _ saleA3
           submit_formA3 Hin).
Defined.


Lemma submitDisabled_agrees_witness :
  FormData.productId formA3 <> []
  /\ In productA exampleProducts
  /\ submitDisabled exampleProducts exampleSales examplePurchases
       exampleReturns formA3
     = negb (submitGuard exampleProducts exampleSales examplePurchases
               exampleReturns formA3).
Proof.
  assert (Hid : FormData.productId formA3 <> []) by (vm_compute; discriminate).
  split; [exact Hid|]. split; [left; reflexivity|].
  assert (Hex : exists q, In q exampleProducts
                          /\ Product.id q = FormData.productId formA3).
  { exists productA. split.
    - left. reflexivity.
    - reflexivity. }
  exact (proj1 (submitDisabled_agrees exampleProducts exampleSales
                  examplePurchases exampleReturns exampleHost formA3 Hid Hex)).
Defined.

Lemma handleSubmit_twice_witness :
  handleSubmit exampleProducts exampleSales examplePurchases exampleReturns
    exampleHost initialFormData
  = Normal (initialFormData, [PreventDefault]).
Proof.
  apply (handleSubmit_twice exampleProducts exampleSales examplePurchases
           exampleReturns exampleHost exampleHost formA3 initialFormData _
           submit_formA3).
Defined.

Lemma handleProductChange_unknown_witness :
  (forall q, In q exampleProducts -> Product.id q <> lit "Z")
  /\ FormData.unitPrice (handleProductChange exampleProducts (lit "Z") formA3) = []
  /\ submitDisabled exampleProducts exampleSales examplePurchases
       exampleReturns (handleProductChange exampleProducts (lit "Z") formA3)
     = true.
Proof.
  assert (Hno : forall q, In q exampleProducts -> Product.id q <> lit "Z").
  { intros q Hin. simpl in Hin.
    repeat (destruct Hin as [<-|Hin]; [vm_compute; discriminate|]).
    destruct Hin. }
  split; [exact Hno|].
  pose proof (handleProductChange_unknown exampleProducts exampleSales
                examplePurchases exampleReturns exampleHost (lit "Z") formA3
                Hno) as H.
  cbv zeta in H. destruct H as (_ & _ & Hu & _ & _ & Hd & _).
  split; [exact Hu | exact Hd].
Defined.

Lemma select_then_submit_witness :
  find (fun p => str_eqb (Product.id p) (lit "A")) exampleProducts = Some productA
  /\ 1 <= getCalculatedStock exampleSales examplePurchases exampleReturns (lit "A")
  /\ stripCurrency (Product.sellPrice productA) <> []
  /\ exists sale,
       handleSubmit exampleProducts exampleSales examplePurchases
         exampleReturns exampleHost
         (handleProductChange exampleProducts (lit "A") initialFormData)
       = Normal (initialFormData,
                 [PreventDefault; OnSaleCreated sale; OnOpenChange false])
       /\ SaleData.quantity sale = 1
       /\ SaleData.productName sale = lit "Product A".
Proof.
  assert (H1 : 1 <= getCalculatedStock exampleSales examplePurchases
                      exampleReturns (lit "A")) by (vm_compute; discriminate).
  assert (H2 : stripCurrency (Product.sellPrice productA) <> [])
    by (vm_compute; discriminate).
  split; [reflexivity|]. split; [exact H1|]. split; [exact H2|].
  destruct (select_then_submit exampleProducts exampleSales examplePurchases
              exampleReturns exampleHost (lit "A") initialFormData productA
              eq_refl H1 H2) as (sale & E & _ & Hn & Hq & _).
  exists sale. split; [exact E|]. split; [exact Hq | exact Hn].
Defined.

Lemma handleSubmit_NaN_price_witness :
  parseFloat (lit "abc") = S754_nan
  /\ exists sale,
       handleSubmit exampleProducts exampleSales examplePurchases
         exampleReturns exampleHost (setUnitPrice (lit "abc") formA3)
       = Normal (initialFormData,
                 [PreventDefault; OnSaleCreated sale; OnOpenChange false])
       /\ SaleData.unitPrice sale = lit "NaN"
       /\ SaleData.totalAmount sale = lit "NaN".
Proof.
  split; [reflexivity|].
  apply (handleSubmit_NaN_price exampleProducts exampleSales examplePurchases
           exampleReturns exampleHost (setUnitPrice (lit "abc") formA3)
           productA).
  - reflexivity.
  - vm_compute. discriminate.
  - reflexivity.
  - reflexivity.
Defined.

Lemma handleQuantityChange_in_stock_witness :
  1 <= availableStock exampleProducts exampleSales examplePurchases
         exampleReturns formA
  /\ 1 <= FormData.quantity
            (handleQuantityChange exampleProducts exampleSales
               examplePurchases exampleReturns (lit "7") formA)
     <= availableStock exampleProducts exampleSales examplePurchases
          exampleReturns formA.
Proof.
  assert (H1 : 1 <= availableStock exampleProducts exampleSales
                      examplePurchases exampleReturns formA)
    by (vm_compute; discriminate).
  split; [exact H1|].
  apply (handleQuantityChange_in_stock exampleProducts exampleSales
           examplePurchases exampleReturns (lit "7") formA H1).
  intros n Hn. vm_compute in Hn. injection Hn as <-. lia.
Defined.


Lemma saleSummary_shows_record_witness :
  saleSummary formA3
  = Some (Normal {| summaryUnitPrice := lit "20.00";
                    summaryQuantity := 3;
                    summaryTotalAmount := lit "60.00" |}).
Proof.
  apply (saleSummary_shows_record exampleProducts exampleSales
           examplePurchases exampleReturns exampleHost formA3 _ _ saleA3
           submit_formA3).
  right; left; reflexivity.
Defined.

Lemma productOptions_stock_witness :
  In {| optionValue := lit "A"; optionName := lit "Product A";
        optionPrice := lit "$19.999"; optionStock := 42 |}
     (productOptions exampleProducts exampleSales examplePurchases
        exampleReturns)
  /\ availableStock exampleProducts exampleSales examplePurchases
       exampleReturns
       (handleProductChange exampleProducts (lit "A") initialFormData) = 42.
Proof.
  assert (Hin : In {| optionValue := lit "A"; optionName := lit "Product A";
                      optionPrice := lit "$19.999"; optionStock := 42 |}
                   (productOptions exampleProducts exampleSales
                      examplePurchases exampleReturns))
    by (left; reflexivity).
  split; [exact Hin|].
  pose proof (productOptions_stock exampleProducts exampleSales
                examplePurchases exampleReturns _ initialFormData Hin) as H.
  cbv zeta in H. destruct H as (Hstock & _). exact Hstock.
Defined.

Lemma quantityError_blocks_witness :
  quantityError exampleProducts exampleSales examplePurchases exampleReturns
    formB = Some 0
  /\ submitDisabled exampleProducts exampleSales examplePurchases
       exampleReturns formB = true
  /\ handleSubmit exampleProducts exampleSales examplePurchases exampleReturns
       exampleHost formB = Normal (formB, [PreventDefault]).
Proof.
  assert (Hq : quantityError exampleProducts exampleSales examplePurchases
                 exampleReturns formB = Some 0) by reflexivity.
  split; [exact Hq|].
  destruct (quantityError_blocks exampleProducts exampleSales
              examplePurchases exampleReturns exampleHost formB 0 Hq)
    as (_ & _ & Hd & Hs).
  split; [exact Hd | exact Hs].
Defined.

Lemma run_within_stock_witness :
  run exampleProducts exampleSales examplePurchases exampleReturns exampleHost
    [ProductChange (lit "A"); QuantityChange (lit "3"); Submit] initialFormData
  = Normal (initialFormData,
            [PreventDefault; OnSaleCreated saleA3; OnOpenChange false])
  /\ SaleData.quantity saleA3
     <= getCalculatedStock exampleSales examplePurchases exampleReturns
          (SaleData.productId saleA3).
Proof.
  assert (E : run exampleProducts exampleSales examplePurchases exampleReturns
                exampleHost
                [ProductChange (lit "A"); QuantityChange (lit "3"); Submit]
                initialFormData
              = Normal (initialFormData,
                        [PreventDefault; OnSaleCreated saleA3;
                         OnOpenChange false]))
    by (vm_compute; reflexivity).
  split; [exact E|].
  apply (run_within_stock exampleProducts exampleSales examplePurchases
           exampleReturns exampleHost _ _ _ _ saleA3 E).
  right; left; reflexivity.
Defined.


Lemma sale_dates_same_day_witness :
  TimeFromYear 0 <= 1710027000000 < TimeFromYear 10000
  /\ TimeFromYear 0 <= 1709942400000 < TimeFromYear 10000
  /\ Day 1710027000000 = Day 1709942400000
  /\ SaleData.date saleA3
     = SaleData.date
         (saleOf {| now := 1709942400000; timezoneOffset := -300 |}
            productA (lit "20.00") (lit "60.00") formA3).
Proof.
  assert (H1 : TimeFromYear 0 <= 1710027000000 < TimeFromYear 10000)
    by (vm_compute; split; [discriminate | reflexivity]).
  assert (H2 : TimeFromYear 0 <= 1709942400000 < TimeFromYear 10000)
    by (vm_compute; split; [discriminate | reflexivity]).
  split; [exact H1|]. split; [exact H2|]. split; [reflexivity|].
  apply (sale_dates_same_day exampleProducts exampleSales examplePurchases
           exampleReturns 1710027000000 360 1709942400000 (-300)
           formA3 initialFormData formA3 initialFormData
           [PreventDefault; OnSaleCreated saleA3; OnOpenChange false]
           [PreventDefault;
            OnSaleCreated
              (saleOf {| now := 1709942400000; timezoneOffset := -300 |}
                 productA (lit "20.00") (lit "60.00") formA3);
            OnOpenChange false]).
  - exact submit_formA3.
  - right; left; reflexivity.
  - vm_compute. reflexivity.
  - right; left; reflexivity.
  - exact H1.
  - exact H2.
  - reflexivity.
Defined.

Lemma handleSubmit_two_decimals_witness :
  isPlainAmount (parseFloat (FormData.unitPrice formA3)) = true
  /\ exists ip fp,
       SaleData.unitPrice saleA3 = digitChars ip ++ lit "." ++ digitChars fp
       /\ length fp = 2%nat
       /\ digitsValue 10 (ip ++ fp) = 2000.
Proof.
  assert (Hplain : isPlainAmount (parseFloat (FormData.unitPrice formA3)) = true)
    by (vm_compute; reflexivity).
  split; [exact Hplain|].
  pose proof (handleSubmit_two_decimals exampleProducts exampleSales
                examplePurchases exampleReturns exampleHost formA3 _ _ saleA3
                submit_formA3 (or_intror (or_introl eq_refl))) as H.
  cbv zeta in H. destruct H as [H _].
  destruct (H Hplain) as (ip & fp & E & _ & Hlen & _ & Hval).
  exists ip, fp. split; [exact E|]. split; [exact Hlen|].
  rewrite Hval. vm_compute. reflexivity.
Defined.
